(** * Most-active-cookie scanner ([solution.py]): shallow embedding and
      verification of its specification.

    The program reads a cookie log (a header line followed by
    [cookie,timestamp] lines, newest first), locates the block of a given
    day with [bisect.bisect_left] on the reversed list of lines, tallies the
    cookies of that block in a [collections.Counter] and prints the cookies
    that reach the highest tally.

    Python values are embedded as follows.
    - [int] is [Z]; [str] is [string]; a list is a [list].
    - An exception is a constructor of [exn]; a computation that may raise
      has type [result A].  [sys.exit(n)] raises [SystemExit n].
    - A [Counter] is an association list in insertion order (a Python dict
      iterates in insertion order).
    - A text file is the list of the lines its iterator yields.
    - [datetime.datetime.strptime] is a parameter of the development: the
      program only needs that it either returns a [datetime] or raises
      [ValueError]. *)

From Stdlib Require Import ZArith List String Ascii Bool Lia Sorted.
From Equations Require Import Equations.
Import ListNotations.

Local Open Scope string_scope.
Local Open Scope list_scope.
Local Open Scope Z_scope.

(* ===================================================================== *)
(** ** Python run-time fragments *)
(* ===================================================================== *)

Inductive exn : Type :=
| StopIteration
| OSError
| ValueError
| IndexError
| SystemExit (code : Z).

Inductive result (A : Type) : Type :=
| Ok (a : A)
| Raise (e : exn).

Arguments Ok {A} a.
Arguments Raise {A} e.

Definition bind {A B : Type} (c : result A) (k : A -> result B) : result B :=
  match c with
  | Ok a => k a
  | Raise e => Raise e
  end.

Notation "x <- c ;; k" := (bind c (fun x => k))
  (at level 61, c at next level, right associativity).
Notation "' pat <- c ;; k" := (bind c (fun x => match x with pat => k end))
  (at level 61, pat pattern, c at next level, right associativity).

(** [l[i]]: negative indices count from the end, anything outside the list
    raises [IndexError]. *)
Definition getitem {A : Type} (l : list A) (i : Z) : result A :=
  let n := Z.of_nat (List.length l) in
  let j := if i <? 0 then i + n else i in
  if (0 <=? j) && (j <? n) then
    match nth_error l (Z.to_nat j) with
    | Some a => Ok a
    | None => Raise IndexError
    end
  else Raise IndexError.

(** [len(l)]. *)
Definition len {A : Type} (l : list A) : Z := Z.of_nat (List.length l).

(** [n - 1, n - 2, ..., 0]. *)
Fixpoint countdown (n : nat) : list Z :=
  match n with
  | O => []
  | S m => Z.of_nat m :: countdown m
  end.

(** [range(start, -1, -1)]: [start, start - 1, ..., 0], empty when
    [start < 0]. *)
Definition range_down (start : Z) : list Z := countdown (Z.to_nat (start + 1)).

(** The characters [str.strip()] removes, among the code points below 256
    a [string] here is made of: tab, line feed, vertical tab, form feed,
    carriage return, the separators 0x1c-0x1f, the space, next line (0x85)
    and the no-break space (0xa0). *)
Definition isspace (c : ascii) : bool :=
  let n := nat_of_ascii c in
  ((9 <=? n) && (n <=? 13) || (28 <=? n) && (n <=? 32)
   || (n =? 133) || (n =? 160))%nat.

Fixpoint lstrip (s : string) : string :=
  match s with
  | EmptyString => EmptyString
  | String c s' => if isspace c then lstrip s' else s
  end.

Fixpoint rstrip (s : string) : string :=
  match s with
  | EmptyString => EmptyString
  | String c s' =>
      match rstrip s' with
      | EmptyString => if isspace c then EmptyString else String c EmptyString
      | r => String c r
      end
  end.

(** [s.strip()]. *)
Definition strip (s : string) : string := rstrip (lstrip s).

(** [s.split(sep)] for a one-character separator: the fields between the
    separators, always at least one field. *)
Fixpoint split (sep : ascii) (s : string) : list string :=
  match s with
  | EmptyString => [EmptyString]
  | String c s' =>
      if Ascii.eqb c sep then EmptyString :: split sep s'
      else match split sep s' with
           | [] => [String c EmptyString]
           | f :: fs => String c f :: fs
           end
  end.

(** Does [c] occur in [s]? *)
Fixpoint contains (c : ascii) (s : string) : bool :=
  match s with
  | EmptyString => false
  | String c' s' => Ascii.eqb c' c || contains c s'
  end.

(** The number of occurrences of [c] in [s]. *)
Fixpoint count_char (c : ascii) (s : string) : nat :=
  match s with
  | EmptyString => O
  | String c' s' => (if Ascii.eqb c' c then 1 else 0) + count_char c s'
  end.

(** Does [s] start with a character [strip] removes? *)
Definition starts_with_space (s : string) : bool :=
  match s with
  | EmptyString => false
  | String c _ => isspace c
  end.

(** [a, b = l]: unpacking a list into two names raises [ValueError] unless
    the list has exactly two elements. *)
Definition unpack2 {A : Type} (l : list A) : result (A * A) :=
  match l with
  | [a; b] => Ok (a, b)
  | _ => Raise ValueError
  end.

(* --------------------------------------------------------------------- *)
(** *** [datetime.date] and [datetime.datetime] *)

Record date : Type := mkdate { year : Z; month : Z; day : Z }.

Record datetime : Type := mkdatetime {
  dt_date : date;        (* what [.date()] returns *)
  hour : Z;
  minute : Z;
  second : Z;
  utcoffset : option Z   (* seconds east of UTC; [None] for a naive value *)
}.

(** [a == b] on dates. *)
Definition date_eqb (a b : date) : bool :=
  (year a =? year b) && (month a =? month b) && (day a =? day b).

(** [a < b] on dates: lexicographic on (year, month, day). *)
Definition date_ltb (a b : date) : bool :=
  (year a <? year b)
  || (year a =? year b)
     && ((month a <? month b) || (month a =? month b) && (day a <? day b)).

(** [a <= b] on dates. *)
Definition date_leb (a b : date) : bool := negb (date_ltb b a).

(* --------------------------------------------------------------------- *)
(** *** [collections.Counter] *)

Definition Counter : Type := list (string * Z).

(** [c[k]]: a missing key reads as 0 and is not inserted. *)
Fixpoint counter_get (c : Counter) (k : string) : Z :=
  match c with
  | [] => 0
  | (k', v) :: c' => if String.eqb k' k then v else counter_get c' k
  end.

(** [c[k] = v]: an existing key keeps its place, a new key goes last. *)
Fixpoint counter_set (c : Counter) (k : string) (v : Z) : Counter :=
  match c with
  | [] => [(k, v)]
  | (k', v') :: c' =>
      if String.eqb k' k then (k', v) :: c' else (k', v') :: counter_set c' k v
  end.

(** [c[k] += 1]. *)
Definition counter_incr (c : Counter) (k : string) : Counter :=
  counter_set c k (counter_get c k + 1).

(** The keys met so far, in the order they were first met, after [k] is
    met. *)
Definition note_key (keys : list string) (k : string) : list string :=
  if existsb (String.eqb k) keys then keys else keys ++ [k].

(** The distinct elements of [cookies], each at its first occurrence. *)
Definition first_seen (cookies : list string) : list string :=
  fold_left note_key cookies [].

(** The keys in iteration order ([for k in c]). *)
Definition counter_keys (c : Counter) : list string := map fst c.

(** [max(items, key=itemgetter(1))]: the first item with the largest
    count. *)
Definition max_item (x : string * Z) (xs : list (string * Z)) : string * Z :=
  fold_left (fun best item => if snd best <? snd item then item else best) xs x.

(** [c.most_common(1)], that is [heapq.nlargest(1, c.items(), key=count)]:
    empty for an empty counter, else the one item [max] picks. *)
Definition most_common_1 (c : Counter) : list (string * Z) :=
  match c with
  | [] => []
  | x :: xs => [max_item x xs]
  end.

(* --------------------------------------------------------------------- *)
(** *** Files and the process *)

(** A file system maps a path to the lines of the file, [None] when
    [open] fails. *)
Definition filesystem : Type := string -> option (list string).

(** [open(filename, "r")]. *)
Definition open_ (fs : filesystem) (filename : string) : result (list string) :=
  match fs filename with
  | Some ls => Ok ls
  | None => Raise OSError
  end.

(** [next(fp)] followed by [fp.readlines()]: the first line is dropped, the
    others are returned; an empty file raises [StopIteration]. *)
Definition next_then_readlines (fp : list string) : result (list string) :=
  match fp with
  | [] => Raise StopIteration
  | _ :: lines => Ok lines
  end.

(** What a run leaves behind: the arguments of the [print] calls to
    standard output and to standard error, in order ([print] ends each with
    a newline), and how it ended: [Ok tt], or the exception that reached
    the top level, whose traceback is not part of [stderr] here.  The
    interpreter turns [SystemExit n] into the exit status [n]. *)
Record outcome : Type := mkoutcome {
  stdout : list string;
  stderr : list string;
  status : result unit
}.

(** The namespace [argparse] builds from [-f/--file] and [-d/--date]. *)
Record namespace : Type := mknamespace { ns_filename : string; ns_date : string }.

(* ===================================================================== *)
(** ** The program *)
(* ===================================================================== *)

Definition TIMESTAMP_FORMAT : string := "%Y-%m-%dT%H:%M:%S%z".

Section Program.

(** [datetime.datetime.strptime data format]; [None] stands for
    [ValueError]. *)
Variable strptime : string -> string -> option datetime.

Definition py_strptime (data format : string) : result datetime :=
  match strptime data format with
  | Some dt => Ok dt
  | None => Raise ValueError
  end.

(** The [key] function handed to [bisect_left]. *)
Definition sort_key (x : string) : result date :=
  field <- getitem (split "," x) 1 ;;
  dt <- py_strptime (strip field) TIMESTAMP_FORMAT ;;
  Ok (dt_date dt).

(** [bisect.bisect_left(a, x, key=key)], the loop
    [while lo < hi: mid = (lo + hi) // 2;
       if key(a[mid]) < x: lo = mid + 1 else: hi = mid]. *)
Equations? bisect_loop (key : string -> result date) (a : list string)
  (x : date) (lo hi : Z) : result Z by wf (Z.to_nat (hi - lo)) lt :=
bisect_loop key a x lo hi with Z_lt_dec lo hi => {
  | right _ => Ok lo
  | left _ with bind (getitem a ((lo + hi) / 2)) key => {
      | Raise e => Raise e
      | Ok k with date_ltb k x => {
          | true => bisect_loop key a x ((lo + hi) / 2 + 1) hi
          | false => bisect_loop key a x lo ((lo + hi) / 2) } } }.
Proof.
  all: assert (lo <= (lo + hi) / 2 < hi)
    by (split; [apply Z.div_le_lower_bound | apply Z.div_lt_upper_bound]; lia);
    lia.
Qed.

Definition bisect_left (a : list string) (x : date)
  (key : string -> result date) : result Z :=
  bisect_loop key a x 0 (len a).

(** The first two statements of the loop body: the stripped line is split
    into cookie and timestamp, and the timestamp is parsed. *)
Definition parse_record (line : string) : result (string * date) :=
  '(cookie, timestamp) <- unpack2 (split "," (strip line)) ;;
  dt <- py_strptime timestamp TIMESTAMP_FORMAT ;;
  Ok (cookie, dt_date dt).

(** [for i in indices: ... if date != timestamp: break; seen[cookie] += 1]. *)
Fixpoint scan_loop (lines : list string) (date_ : date) (indices : list Z)
  (seen : Counter) : result Counter :=
  match indices with
  | [] => Ok seen
  | i :: rest =>
      line <- getitem lines i ;;
      '(cookie, timestamp) <- parse_record line ;;
      if negb (date_eqb date_ timestamp) then Ok seen
      else scan_loop lines date_ rest (counter_incr seen cookie)
  end.

(** The body of the [with] block once the lines are read. *)
Definition count_lines (lines : list string) (date_ : date) : result Counter :=
  index <- bisect_left (rev lines) date_ sort_key ;;
  scan_loop lines date_ (range_down (len lines - index - 1)) [].

Definition parse_file (fs : filesystem) (filename : string) (date_ : date)
  : result Counter :=
  fp <- open_ fs filename ;;
  lines <- next_then_readlines fp ;;
  count_lines lines date_.

(** [parse_args] after [argparse] has produced the namespace: the lines
    printed to standard error and the result. *)
Definition parse_args (args : namespace) : list string * result (string * date) :=
  match strptime (ns_date args) "%Y-%m-%d" with
  | Some dt => ([], Ok (ns_filename args, dt_date dt))
  | None =>
      ([("Error: Invalid date format '" ++ ns_date args
           ++ "'. Expected a YYYY-MM-DD.")%string],
       Raise (SystemExit 1))
  end.

(** [for cookie in counts: if counts[cookie] == high: print(cookie)
    else: break], as the list of printed cookies. *)
Fixpoint report_loop (counts : Counter) (high : Z) (keys : list string)
  : list string :=
  match keys with
  | [] => []
  | cookie :: rest =>
      if counter_get counts cookie =? high
      then cookie :: report_loop counts high rest
      else []
  end.

(** [counts.most_common(1)[0][1]]. *)
Definition highest (counts : Counter) : result Z :=
  top <- getitem (most_common_1 counts) 0 ;;
  Ok (snd top).

(** The statements of the main block after [parse_file] returned. *)
Definition report (counts : Counter) : result (list string) :=
  high <- highest counts ;;
  Ok (report_loop counts high (counter_keys counts)).

(** The [__main__] block. *)
Definition main (fs : filesystem) (args : namespace) : outcome :=
  match parse_args args with
  | (err, Raise e) => mkoutcome [] err (Raise e)
  | (err, Ok (filename, date_)) =>
      match parse_file fs filename date_ with
      | Raise e => mkoutcome [] err (Raise e)
      | Ok counts =>
          match report counts with
          | Raise e => mkoutcome [] err (Raise e)
          | Ok printed => mkoutcome printed err (Ok tt)
          end
      end
  end.

End Program.

(* ===================================================================== *)
(** ** Notions the specification uses *)
(* ===================================================================== *)

(** *** Timestamps as instants

    [date.toordinal] of the proleptic Gregorian calendar, as CPython
    computes it, and the number of seconds of an aware [datetime] counted in
    UTC: two timestamps compare as their instants do. *)

Definition is_leap (y : Z) : bool :=
  (y mod 4 =? 0) && (negb (y mod 100 =? 0) || (y mod 400 =? 0)).

Definition days_before_year (y : Z) : Z :=
  let p := y - 1 in p * 365 + p / 4 - p / 100 + p / 400.

Definition days_before_month (y m : Z) : Z :=
  nth (Z.to_nat (m - 1)) [0; 31; 59; 90; 120; 151; 181; 212; 243; 273; 304; 334] 0
  + (if (2 <? m) && is_leap y then 1 else 0).

Definition days_in_month (y m : Z) : Z :=
  if (m =? 2) && is_leap y then 29
  else nth (Z.to_nat (m - 1)) [31; 28; 31; 30; 31; 30; 31; 31; 30; 31; 30; 31] 0.

Definition toordinal (d : date) : Z :=
  days_before_year (year d) + days_before_month (year d) (month d) + day d.

Definition utc_seconds (dt : datetime) : Z :=
  toordinal (dt_date dt) * 86400 + hour dt * 3600 + minute dt * 60 + second dt
  - match utcoffset dt with Some off => off | None => 0 end.

(** The field ranges [datetime] enforces on the values it builds. *)
Definition valid_datetime (dt : datetime) : Prop :=
  1 <= month (dt_date dt) <= 12
  /\ 1 <= day (dt_date dt)
          <= days_in_month (year (dt_date dt)) (month (dt_date dt))
  /\ 0 <= hour dt < 24 /\ 0 <= minute dt < 60 /\ 0 <= second dt < 60.

(** *** A fixed-width [strptime]

    The two formats of the program on their fixed-width spellings,
    [YYYY-MM-DD] and [YYYY-MM-DDTHH:MM:SS+HHMM] (or [-HHMM]), with the
    values CPython returns for them.  Every other string is refused here;
    it instantiates the [strptime] parameter in the examples. *)

Definition digit (c : ascii) : option Z :=
  let n := nat_of_ascii c in
  if ((48 <=? n) && (n <=? 57))%nat then Some (Z.of_nat n - 48) else None.

Fixpoint take_digits (n : nat) (s : string) (acc : Z) : option (Z * string) :=
  match n, s with
  | O, _ => Some (acc, s)
  | S n', String c s' =>
      match digit c with
      | Some d => take_digits n' s' (10 * acc + d)
      | None => None
      end
  | S _, EmptyString => None
  end.

Definition expect (c : ascii) (s : string) : option string :=
  match s with
  | String c' s' => if Ascii.eqb c c' then Some s' else None
  | EmptyString => None
  end.

Definition obind {A B : Type} (c : option A) (k : A -> option B) : option B :=
  match c with
  | Some a => k a
  | None => None
  end.

Definition read_date (s : string) : option (date * string) :=
  obind (take_digits 4 s 0) (fun '(y, s) =>
  obind (expect "-" s) (fun s =>
  obind (take_digits 2 s 0) (fun '(m, s) =>
  obind (expect "-" s) (fun s =>
  obind (take_digits 2 s 0) (fun '(d, s) =>
  if (1 <=? y) && (1 <=? m) && (m <=? 12) && (1 <=? d) && (d <=? days_in_month y m)
  then Some (mkdate y m d, s) else None))))).

Definition read_sign (s : string) : option (Z * string) :=
  match s with
  | String "+" s' => Some (1, s')
  | String "-" s' => Some (-1, s')
  | _ => None
  end.

Definition read_timestamp (s : string) : option datetime :=
  obind (read_date s) (fun '(d, s) =>
  obind (expect "T" s) (fun s =>
  obind (take_digits 2 s 0) (fun '(h, s) =>
  obind (expect ":" s) (fun s =>
  obind (take_digits 2 s 0) (fun '(mi, s) =>
  obind (expect ":" s) (fun s =>
  obind (take_digits 2 s 0) (fun '(sec, s) =>
  obind (read_sign s) (fun '(sg, s) =>
  obind (take_digits 2 s 0) (fun '(oh, s) =>
  obind (take_digits 2 s 0) (fun '(om, s) =>
  match s with
  | EmptyString =>
      if (h <=? 23) && (mi <=? 59) && (sec <=? 59) && (oh <=? 23) && (om <=? 59)
      then Some (mkdatetime d h mi sec (Some (sg * (oh * 3600 + om * 60))))
      else None
  | _ => None
  end)))))))))).

Definition strptime_fixed (data format : string) : option datetime :=
  if String.eqb format TIMESTAMP_FORMAT then read_timestamp data
  else if String.eqb format "%Y-%m-%d" then
    match read_date data with
    | Some (d, EmptyString) => Some (mkdatetime d 0 0 0 None)
    | _ => None
    end
  else None.

(** The line feed that ends each line [readlines] returns. *)
Definition LF : string := String (ascii_of_nat 10) EmptyString.

(** The log of the specification's scenario. *)
Definition sample_log : list string :=
  [ "Cookie,Timestamp" ++ LF;
    "AtY0laUfhglK3lC7,2018-12-09T14:19:00+0000" ++ LF;
    "SAZuXPGUrfbcn5UA,2018-12-09T10:13:00+0000" ++ LF;
    "5UAVanZf6UtGyKVS,2018-12-09T07:25:00+0000" ++ LF;
    "AtY0laUfhglK3lC7,2018-12-09T06:19:00+0000" ++ LF;
    "SAZuXPGUrfbcn5UA,2018-12-08T22:03:00+0000" ++ LF;
    "4sMM2LxV07bPJzwf,2018-12-08T21:30:00+0000" ++ LF ]%string.

(** The file system that holds one file, [cookie_log.csv]. *)
Definition one_file (content : list string) : filesystem :=
  fun path => if String.eqb path "cookie_log.csv" then Some content else None.

Definition sample_fs : filesystem := one_file sample_log.

(** A log sorted by timestamp whose lines carry different UTC offsets: the
    second record is half an hour older than the first one, yet its local
    day is the next one. *)
Definition mixed_offset_log : list string :=
  [ "cookie,timestamp" ++ LF;
    "a,2018-12-08T23:00:00+0000" ++ LF;
    "b,2018-12-09T00:30:00+0200" ++ LF ]%string.

(** A sorted log in which the most active cookie of the day is not the one
    of the day's oldest record. *)
Definition late_leader_log : list string :=
  [ "cookie,timestamp" ++ LF;
    "A,2018-12-09T10:00:00+0000" ++ LF;
    "A,2018-12-09T09:00:00+0000" ++ LF;
    "B,2018-12-09T08:00:00+0000" ++ LF ]%string.

(** A log whose newest data line is not a record, below two days of
    records: a query for the older day reaches it. *)
Definition reached_garbage_log : list string :=
  [ "cookie,timestamp" ++ LF;
    "oops" ++ LF;
    "y,2018-12-08T22:03:00+0000" ++ LF;
    "z,2018-12-08T21:30:00+0000" ++ LF ]%string.

(** The sample log under a first line that reads as a record of
    2018-12-09. *)
Definition record_header_log : list string :=
  ("AtY0laUfhglK3lC7,2018-12-09T23:00:00+0000" ++ LF)%string :: tl sample_log.

(** A log with a line that is not a record where the search for
    2018-12-08 makes its second probe. *)
Definition second_probe_garbage_log : list string :=
  [ "cookie,timestamp" ++ LF;
    "x,2018-12-09T07:25:00+0000" ++ LF;
    "y,2018-12-08T22:03:00+0000" ++ LF;
    "oops" ++ LF;
    "z,2018-12-08T21:30:00+0000" ++ LF ]%string.

(** A log whose middle data line is not a record. *)
Definition middle_garbage_log : list string :=
  [ "cookie,timestamp" ++ LF;
    "x,2018-12-09T07:25:00+0000" ++ LF;
    "oops" ++ LF;
    "z,2018-12-08T21:30:00+0000" ++ LF ]%string.

(** A sorted log whose records of 2018-12-10 all have the key [k]. *)
Definition single_key_log : list string :=
  [ "cookie,timestamp" ++ LF;
    "k,2018-12-10T08:00:00+0000" ++ LF;
    "k,2018-12-10T07:00:00+0000" ++ LF;
    "j,2018-12-09T07:00:00+0000" ++ LF ]%string.

(** A log that is not sorted: a record of 2018-12-09 sits below the
    records of 2018-12-08. *)
Definition unsorted_log : list string :=
  [ "cookie,timestamp" ++ LF;
    "a,2018-12-09T10:00:00+0000" ++ LF;
    "b,2018-12-08T22:00:00+0000" ++ LF;
    "a,2018-12-09T09:00:00+0000" ++ LF ]%string.

(** A log whose newest data line is not a record. *)
Definition unread_garbage_log : list string :=
  [ "cookie,timestamp" ++ LF;
    "garbage" ++ LF;
    "x,2018-12-09T07:25:00+0000" ++ LF;
    "y,2018-12-08T22:03:00+0000" ++ LF;
    "z,2018-12-08T21:30:00+0000" ++ LF ]%string.

(* --------------------------------------------------------------------- *)
(** *** The lines the search reads

    [probes key a x lo hi m]: the search for [x] in the positions
    [lo, hi) of [a] reads the key of position [m].  It reads the middle
    position first; it goes on in the upper half when the key of the middle
    position is smaller than [x] and in the lower half when it is not, and
    it goes on only when that key was read without an exception. *)

Inductive probes (key : string -> result date) (a : list string) (x : date)
  : Z -> Z -> Z -> Prop :=
| probes_middle (lo hi : Z) :
    lo < hi -> probes key a x lo hi ((lo + hi) / 2)
| probes_upper (lo hi : Z) (k : date) (m : Z) :
    lo < hi ->
    bind (getitem a ((lo + hi) / 2)) key = Ok k -> date_ltb k x = true ->
    probes key a x ((lo + hi) / 2 + 1) hi m ->
    probes key a x lo hi m
| probes_lower (lo hi : Z) (k : date) (m : Z) :
    lo < hi ->
    bind (getitem a ((lo + hi) / 2)) key = Ok k -> date_ltb k x = false ->
    probes key a x lo ((lo + hi) / 2) m ->
    probes key a x lo hi m.

(* --------------------------------------------------------------------- *)
(** *** Records, well-formed lines, sorted logs, the full scan *)

Section Notions.

Variable strptime : string -> string -> option datetime.

(** The record of a data line: its key and its timestamp. *)
Definition record_of (line : string) : result (string * datetime) :=
  '(cookie, timestamp) <- unpack2 (split "," (strip line)) ;;
  dt <- py_strptime strptime timestamp TIMESTAMP_FORMAT ;;
  Ok (cookie, dt).

(** A data line is well formed when it is a record [key,timestamp]: the
    scan reads a key and a timestamp from it, and the binary search reads
    the same day from it. *)
Definition well_formed (line : string) : Prop :=
  exists cookie dt,
    record_of line = Ok (cookie, dt)
    /\ sort_key strptime line = Ok (dt_date dt).

(** [a] is listed before [b] in a log sorted by timestamp, newest first. *)
Definition timestamp_desc (a b : string) : Prop :=
  exists ka ta kb tb,
    record_of a = Ok (ka, ta) /\ record_of b = Ok (kb, tb)
    /\ utc_seconds tb <= utc_seconds ta.

(** [a] is listed before [b] in a log sorted by day, newest first. *)
Definition date_desc (a b : string) : Prop :=
  exists ka da kb db,
    parse_record strptime a = Ok (ka, da)
    /\ parse_record strptime b = Ok (kb, db)
    /\ date_leb db da = true.

(** The line is a record whose timestamp carries the UTC offset [off]. *)
Definition record_at_offset (off : option Z) (line : string) : Prop :=
  exists cookie dt,
    record_of line = Ok (cookie, dt) /\ valid_datetime dt /\ utcoffset dt = off.

(** The line is a record whose day satisfies [p]. *)
Definition day_satisfies (p : date -> bool) (line : string) : Prop :=
  exists cookie t, parse_record strptime line = Ok (cookie, t) /\ p t = true.

(** Does the line hold a record of key [k] on day [d]? *)
Definition record_matches (d : date) (k : string) (line : string) : bool :=
  match parse_record strptime line with
  | Ok (cookie, timestamp) => date_eqb d timestamp && String.eqb cookie k
  | Raise _ => false
  end.

(** The number of data lines with key [k] whose day is [d]. *)
Definition matching_lines (lines : list string) (d : date) (k : string) : Z :=
  len (filter (record_matches d k) lines).

(** The full scan the specification compares with: every line, first to
    last, is parsed, and its key is counted when its day is the query day;
    nothing is skipped and nothing stops the scan. *)
Fixpoint linear_scan (lines : list string) (d : date) (seen : Counter)
  : result Counter :=
  match lines with
  | [] => Ok seen
  | line :: rest =>
      '(cookie, timestamp) <- parse_record strptime line ;;
      linear_scan rest d
        (if date_eqb d timestamp then counter_incr seen cookie else seen)
  end.

(** The scan loop over the lines themselves, in the order it visits them. *)
Fixpoint scan_lines (visited : list string) (d : date) (seen : Counter)
  : result Counter :=
  match visited with
  | [] => Ok seen
  | line :: rest =>
      '(cookie, timestamp) <- parse_record strptime line ;;
      if negb (date_eqb d timestamp) then Ok seen
      else scan_lines rest d (counter_incr seen cookie)
  end.

(** The key of the line when it is a record of day [d]. *)
Definition cookie_on (d : date) (line : string) : list string :=
  match parse_record strptime line with
  | Ok (cookie, timestamp) => if date_eqb d timestamp then [cookie] else []
  | Raise _ => []
  end.

(** The keys of the records of day [d], read from the last line of the log
    to the first. *)
Definition day_cookies (lines : list string) (d : date) : list string :=
  flat_map (cookie_on d) (rev lines).

(** Boolean versions of the three notions above, for concrete logs. *)
Definition well_formedb (line : string) : bool :=
  match record_of line, sort_key strptime line with
  | Ok (_, dt), Ok t => date_eqb (dt_date dt) t
  | _, _ => false
  end.

Definition timestamp_descb (a b : string) : bool :=
  match record_of a, record_of b with
  | Ok (_, ta), Ok (_, tb) => utc_seconds tb <=? utc_seconds ta
  | _, _ => false
  end.

Definition date_descb (a b : string) : bool :=
  match parse_record strptime a, parse_record strptime b with
  | Ok (_, da), Ok (_, db) => date_leb db da
  | _, _ => false
  end.

End Notions.

(** Are neighbours related by [r] all along the list? *)
Fixpoint sortedb {A : Type} (r : A -> A -> bool) (l : list A) : bool :=
  match l with
  | [] => true
  | a :: l' =>
      match l' with
      | [] => true
      | b :: _ => r a b
      end && sortedb r l'
  end.

(* ===================================================================== *)
(** ** Properties of the run-time fragments *)
(* ===================================================================== *)

Lemma sortedb_Sorted {A : Type} (r : A -> A -> bool) (R : A -> A -> Prop)
  (l : list A) :
  (forall a b, r a b = true -> R a b) -> sortedb r l = true -> Sorted R l.
Proof.
  intros Hr. induction l as [| a l IH]; intros H.
  - constructor.
  - cbn [sortedb] in H. apply andb_true_iff in H. destruct H as [Hhd Htl].
    constructor; [apply IH, Htl |].
    destruct l as [| b l]; constructor. apply Hr, Hhd.
Qed.

Lemma forallb_Forall {A : Type} (p : A -> bool) (P : A -> Prop) (l : list A) :
  (forall a, p a = true -> P a) -> forallb p l = true -> Forall P l.
Proof.
  intros Hp H. rewrite forallb_forall in H. apply Forall_forall.
  intros a Ha. apply Hp, H, Ha.
Qed.

Lemma getitem_nth_error {A : Type} (l : list A) (i : Z) :
  0 <= i < len l ->
  exists x, nth_error l (Z.to_nat i) = Some x /\ getitem l i = Ok x.
Proof.
  unfold len, getitem. intros Hi.
  destruct (i <? 0) eqn:Hneg; [lia |].
  replace ((0 <=? i) && (i <? Z.of_nat (List.length l))) with true
    by (symmetry; apply andb_true_iff; lia).
  destruct (nth_error l (Z.to_nat i)) as [x |] eqn:Hn.
  - exists x. auto.
  - apply nth_error_None in Hn. lia.
Qed.

Lemma getitem_of_nat {A : Type} (l : list A) (n : nat) (x : A) :
  nth_error l n = Some x -> getitem l (Z.of_nat n) = Ok x.
Proof.
  intros Hn.
  assert (n < List.length l)%nat by (apply nth_error_Some; congruence).
  destruct (getitem_nth_error l (Z.of_nat n)) as [y [Hy Hg]];
    [unfold len; lia |].
  rewrite Nat2Z.id in Hy. congruence.
Qed.

Lemma len_nonneg {A : Type} (l : list A) : 0 <= len l.
Proof. unfold len. lia. Qed.

Lemma len_rev {A : Type} (l : list A) : len (rev l) = len l.
Proof. unfold len. now rewrite length_rev. Qed.

Lemma len_app {A : Type} (l1 l2 : list A) : len (l1 ++ l2) = len l1 + len l2.
Proof. unfold len. rewrite length_app. lia. Qed.

Lemma range_down_neg (start : Z) : start < 0 -> range_down start = [].
Proof.
  intros H. unfold range_down.
  replace (Z.to_nat (start + 1)) with O by lia. reflexivity.
Qed.

Lemma countdown_bounds (n : nat) :
  Forall (fun i => 0 <= i < Z.of_nat n) (countdown n).
Proof.
  induction n as [| n IH].
  - constructor.
  - cbn [countdown]. constructor; [lia |].
    eapply Forall_impl; [| exact IH]. intros; simpl in *; lia.
Qed.

Lemma range_down_bounds (start : Z) :
  Forall (fun i => 0 <= i <= start) (range_down start).
Proof.
  unfold range_down.
  eapply Forall_impl; [| apply countdown_bounds].
  intros i Hi. simpl in Hi. lia.
Qed.

(* --------------------------------------------------------------------- *)
(** *** Strings *)

Lemma lstrip_app (a b : string) :
  starts_with_space (a ++ b)%string = false ->
  lstrip (a ++ b)%string = (a ++ b)%string.
Proof.
  destruct (a ++ b)%string as [| c s]; simpl; intros H.
  - reflexivity.
  - now rewrite H.
Qed.

Lemma rstrip_app (a b : string) :
  rstrip (a ++ b)%string
  = match rstrip b with
    | EmptyString => rstrip a
    | String _ _ => (a ++ rstrip b)%string
    end.
Proof.
  induction a as [| c a IH]; simpl.
  - destruct (rstrip b); reflexivity.
  - rewrite IH. destruct (rstrip b) as [| c' r]; [reflexivity |].
    destruct a; reflexivity.
Qed.

Lemma split_no_sep (sep : ascii) (s : string) :
  contains sep s = false -> split sep s = [s].
Proof.
  induction s as [| c s IH]; simpl; intros H.
  - reflexivity.
  - apply orb_false_iff in H. destruct H as [Hc Hs].
    rewrite Hc, (IH Hs). reflexivity.
Qed.

Lemma split_app_sep (sep : ascii) (a b : string) :
  contains sep a = false ->
  split sep (a ++ String sep b)%string = a :: split sep b.
Proof.
  induction a as [| c a IH]; simpl; intros H.
  - now rewrite Ascii.eqb_refl.
  - apply orb_false_iff in H. destruct H as [Hc Ha].
    rewrite Hc, (IH Ha). reflexivity.
Qed.

Lemma contains_app (c : ascii) (a b : string) :
  contains c (a ++ b)%string = contains c a || contains c b.
Proof.
  induction a as [| c' a IH]; simpl.
  - reflexivity.
  - rewrite IH. apply orb_assoc.
Qed.

Lemma rstrip_empty_no_comma (s : string) :
  rstrip s = EmptyString -> contains "," s = false.
Proof.
  induction s as [| c s IH]; simpl.
  - reflexivity.
  - destruct (rstrip s) as [| c' r]; [| discriminate].
    destruct (isspace c) eqn:Hc; [| discriminate].
    intros _. rewrite (IH eq_refl), orb_false_r.
    destruct (Ascii.eqb_spec c ","%char) as [-> | Hne]; [discriminate | reflexivity].
Qed.

(* --------------------------------------------------------------------- *)
(** *** Dates *)

Lemma date_ltb_true (a b : date) :
  date_ltb a b = true <->
  year a < year b
  \/ year a = year b
     /\ (month a < month b \/ month a = month b /\ day a < day b).
Proof.
  unfold date_ltb.
  rewrite !orb_true_iff, !andb_true_iff, !orb_true_iff, !andb_true_iff,
    !Z.ltb_lt, !Z.eqb_eq.
  reflexivity.
Qed.

Lemma date_ltb_false (a b : date) :
  date_ltb a b = false <->
  ~ (year a < year b
     \/ year a = year b
        /\ (month a < month b \/ month a = month b /\ day a < day b)).
Proof. rewrite <- date_ltb_true. symmetry. apply not_true_iff_false. Qed.

Lemma date_eqb_true (a b : date) :
  date_eqb a b = true <->
  year a = year b /\ month a = month b /\ day a = day b.
Proof.
  unfold date_eqb. rewrite !andb_true_iff, !Z.eqb_eq. tauto.
Qed.

Lemma date_eqb_false (a b : date) :
  date_eqb a b = false <->
  ~ (year a = year b /\ month a = month b /\ day a = day b).
Proof. rewrite <- date_eqb_true. symmetry. apply not_true_iff_false. Qed.

(** Comparisons of dates, turned into linear arithmetic on their fields. *)
Ltac date_arith :=
  unfold date_leb in *;
  repeat match goal with
    | H : negb _ = true |- _ => apply negb_true_iff in H
    | H : negb _ = false |- _ => apply negb_false_iff in H
    | H : date_ltb _ _ = true |- _ => apply date_ltb_true in H
    | H : date_ltb _ _ = false |- _ => apply date_ltb_false in H
    | H : date_eqb _ _ = true |- _ => apply date_eqb_true in H
    | H : date_eqb _ _ = false |- _ => apply date_eqb_false in H
    end;
  repeat match goal with
    | |- negb _ = true => apply negb_true_iff
    | |- negb _ = false => apply negb_false_iff
    | |- date_ltb _ _ = true => apply date_ltb_true
    | |- date_ltb _ _ = false => apply date_ltb_false
    | |- date_eqb _ _ = true => apply date_eqb_true
    | |- date_eqb _ _ = false => apply date_eqb_false
    end;
  lia.

Lemma date_eqb_eq (a b : date) : date_eqb a b = true <-> a = b.
Proof.
  split.
  - destruct a, b. intros H. apply date_eqb_true in H. simpl in H.
    destruct H as [-> [-> ->]]. reflexivity.
  - intros ->. date_arith.
Qed.

Lemma date_eqb_refl (a : date) : date_eqb a a = true.
Proof. now apply date_eqb_eq. Qed.

Lemma date_eqb_sym (a b : date) : date_eqb a b = date_eqb b a.
Proof.
  destruct (date_eqb b a) eqn:H; date_arith.
Qed.

Lemma date_leb_trans (a b c : date) :
  date_leb a b = true -> date_leb b c = true -> date_leb a c = true.
Proof. intros H1 H2. date_arith. Qed.

Lemma date_trichotomy (a b : date) :
  date_ltb a b = false -> date_ltb b a = false -> date_eqb a b = true.
Proof. intros H1 H2. date_arith. Qed.

(* --------------------------------------------------------------------- *)
(** *** The calendar *)

Lemma days_before_year_succ (y : Z) :
  days_before_year (y + 1)
  = days_before_year y + 365 + (if is_leap y then 1 else 0).
Proof.
  unfold days_before_year, is_leap. replace (y + 1 - 1) with y by lia.
  destruct (Z.eqb_spec (y mod 4) 0), (Z.eqb_spec (y mod 100) 0),
    (Z.eqb_spec (y mod 400) 0); simpl; Z.div_mod_to_equations; lia.
Qed.

Lemma days_before_year_mono (y y' : Z) :
  y <= y' -> days_before_year y <= days_before_year y'.
Proof.
  unfold days_before_year. intros H. Z.div_mod_to_equations. lia.
Qed.

Lemma month_cases (m : Z) :
  1 <= m <= 12 ->
  m = 1 \/ m = 2 \/ m = 3 \/ m = 4 \/ m = 5 \/ m = 6 \/ m = 7 \/ m = 8
  \/ m = 9 \/ m = 10 \/ m = 11 \/ m = 12.
Proof. lia. Qed.

Ltac by_month m Hm :=
  destruct (month_cases m Hm)
    as [?|[?|[?|[?|[?|[?|[?|[?|[?|[?|[?|?]]]]]]]]]]]; subst m.

Ltac calc_months :=
  repeat match goal with
    | |- context [Z.to_nat ?k] =>
        let v := eval vm_compute in (Z.to_nat k) in
        change (Z.to_nat k) with v
    | H : context [Z.to_nat ?k] |- _ =>
        let v := eval vm_compute in (Z.to_nat k) in
        change (Z.to_nat k) with v in H
    end;
  cbn -[Z.add] in *.

Lemma day_of_year_bounds (y m d : Z) :
  1 <= m <= 12 -> 1 <= d <= days_in_month y m ->
  1 <= days_before_month y m + d <= 365 + (if is_leap y then 1 else 0).
Proof.
  unfold days_before_month, days_in_month.
  destruct (is_leap y); intros Hm Hd; by_month m Hm; calc_months; lia.
Qed.

Lemma day_of_year_mono (y m1 d1 m2 d2 : Z) :
  1 <= m1 <= 12 -> 1 <= d1 <= days_in_month y m1 ->
  1 <= m2 <= 12 -> 1 <= d2 <= days_in_month y m2 ->
  m1 < m2 ->
  days_before_month y m1 + d1 < days_before_month y m2 + d2.
Proof.
  unfold days_before_month, days_in_month.
  destruct (is_leap y); intros Hm1 Hd1 Hm2 Hd2 Hlt;
    by_month m1 Hm1; by_month m2 Hm2; calc_months; lia.
Qed.

(** Earlier dates have smaller ordinals. *)
Lemma toordinal_lt (a b : date) :
  1 <= month a <= 12 -> 1 <= day a <= days_in_month (year a) (month a) ->
  1 <= month b <= 12 -> 1 <= day b <= days_in_month (year b) (month b) ->
  date_ltb a b = true -> toordinal a < toordinal b.
Proof.
  intros Hma Hda Hmb Hdb Hlt. apply date_ltb_true in Hlt. unfold toordinal.
  destruct Hlt as [Hy | [Hy [Hm | [Hm Hd]]]].
  - pose proof (day_of_year_bounds _ _ _ Hma Hda) as Ha.
    pose proof (day_of_year_bounds _ _ _ Hmb Hdb) as Hb.
    pose proof (days_before_year_succ (year a)) as Hs.
    pose proof (days_before_year_mono (year a + 1) (year b) ltac:(lia)).
    lia.
  - rewrite Hy in *.
    pose proof (day_of_year_mono _ _ _ _ _ Hma Hda Hmb Hdb Hm). lia.
  - rewrite Hy, Hm. lia.
Qed.

(** With a common offset, the order of the instants orders the days. *)
Lemma utc_order_same_offset (ta tb : datetime) :
  valid_datetime ta -> valid_datetime tb -> utcoffset ta = utcoffset tb ->
  utc_seconds tb <= utc_seconds ta ->
  date_leb (dt_date tb) (dt_date ta) = true.
Proof.
  intros [Hma [Hda [Hha [Hmia Hsa]]]] [Hmb [Hdb [Hhb [Hmib Hsb]]]] Hoff Hle.
  unfold date_leb. apply negb_true_iff.
  destruct (date_ltb (dt_date ta) (dt_date tb)) eqn:Hlt; [exfalso | reflexivity].
  pose proof (toordinal_lt _ _ Hma Hda Hmb Hdb Hlt) as Hord.
  unfold utc_seconds in Hle. rewrite Hoff in Hle. lia.
Qed.

(* --------------------------------------------------------------------- *)
(** *** The binary search *)

Lemma bisect_mid (lo hi : Z) : lo < hi -> lo <= (lo + hi) / 2 < hi.
Proof.
  intros H. split; [apply Z.div_le_lower_bound | apply Z.div_lt_upper_bound]; lia.
Qed.

Lemma bisect_loop_bounds key a x lo hi r :
  lo <= hi -> bisect_loop key a x lo hi = Ok r -> lo <= r <= hi.
Proof.
  funelim (bisect_loop key a x lo hi); intros Hle Hr.
  - inversion Hr. lia.
  - discriminate.
  - pose proof (bisect_mid lo hi l).
    match goal with IH : forall r, _ -> _ -> _ <= r <= _ |- _ =>
      specialize (IH r ltac:(lia) Hr) end.
    lia.
  - pose proof (bisect_mid lo hi l).
    match goal with IH : forall r, _ -> _ -> _ <= r <= _ |- _ =>
      specialize (IH r ltac:(lia) Hr) end.
    lia.
Qed.

(** A failure of the search is the failure of the key of a line it
    probes. *)
Lemma bisect_loop_raises key a x lo hi e :
  bisect_loop key a x lo hi = Raise e ->
  exists mid, lo <= mid < hi /\ bind (getitem a mid) key = Raise e.
Proof.
  funelim (bisect_loop key a x lo hi); intros Hr.
  - discriminate.
  - inversion Hr; subst. exists ((lo + hi) / 2).
    split; [apply bisect_mid; assumption | assumption].
  - pose proof (bisect_mid lo hi l).
    match goal with IH : forall e, _ -> exists _, _ |- _ =>
      destruct (IH e Hr) as [mid [Hm Hk]] end.
    exists mid. split; [lia | assumption].
  - pose proof (bisect_mid lo hi l).
    match goal with IH : forall e, _ -> exists _, _ |- _ =>
      destruct (IH e Hr) as [mid [Hm Hk]] end.
    exists mid. split; [lia | assumption].
Qed.

(** On a list made of lines whose keys are smaller than [x] followed by
    lines whose keys are not, the search returns the partition point. *)
Lemma bisect_loop_split key x l1 l2 a lo hi :
  a = l1 ++ l2 ->
  Forall (fun s => exists d, key s = Ok d /\ date_ltb d x = true) l1 ->
  Forall (fun s => exists d, key s = Ok d /\ date_ltb d x = false) l2 ->
  0 <= lo <= len l1 -> len l1 <= hi <= len a ->
  bisect_loop key a x lo hi = Ok (len l1).
Proof.
  funelim (bisect_loop key a x lo hi); intros Ha Hl1 Hl2 Hlo Hhi.
  - f_equal. lia.
  - exfalso. pose proof (bisect_mid lo hi l) as Hmid.
    destruct (getitem_nth_error a ((lo + hi) / 2)) as [s [Hs Hg]]; [lia |].
    rewrite Hg in Heq. cbn [bind] in Heq.
    assert (Hin : In s (l1 ++ l2)) by (rewrite <- Ha; eapply nth_error_In, Hs).
    apply in_app_or in Hin. rewrite Forall_forall in Hl1, Hl2.
    destruct Hin as [Hin | Hin];
      [destruct (Hl1 s Hin) as [d [Hd _]] | destruct (Hl2 s Hin) as [d [Hd _]]];
      congruence.
  - pose proof (bisect_mid lo hi l) as Hmid.
    destruct (getitem_nth_error a ((lo + hi) / 2)) as [s [Hs Hg]]; [lia |].
    rewrite Hg in Heq0. cbn [bind] in Heq0.
    match goal with IH : forall l1 l2 : list string, _ |- _ =>
      apply (IH l1 l2); auto end.
    split; [lia |].
    destruct (Z_lt_dec ((lo + hi) / 2) (len l1)) as [Hlt | Hge]; [lia |].
    exfalso. subst a.
    rewrite nth_error_app2 in Hs by (unfold len in *; lia).
    apply nth_error_In in Hs. rewrite Forall_forall in Hl2.
    destruct (Hl2 s Hs) as [d [Hd Hdx]]. congruence.
  - pose proof (bisect_mid lo hi l) as Hmid.
    destruct (getitem_nth_error a ((lo + hi) / 2)) as [s [Hs Hg]]; [lia |].
    rewrite Hg in Heq0. cbn [bind] in Heq0.
    match goal with IH : forall l1 l2 : list string, _ |- _ =>
      apply (IH l1 l2); auto end.
    split; [| lia].
    destruct (Z_lt_dec ((lo + hi) / 2) (len l1)) as [Hlt | Hge]; [| lia].
    exfalso. subst a.
    rewrite nth_error_app1 in Hs by (unfold len in *; lia).
    apply nth_error_In in Hs. rewrite Forall_forall in Hl1.
    destruct (Hl1 s Hs) as [d [Hd Hdx]]. congruence.
Qed.

Lemma bisect_left_split key x l1 l2 :
  Forall (fun s => exists d, key s = Ok d /\ date_ltb d x = true) l1 ->
  Forall (fun s => exists d, key s = Ok d /\ date_ltb d x = false) l2 ->
  bisect_left (l1 ++ l2) x key = Ok (len l1).
Proof.
  intros H1 H2. unfold bisect_left.
  apply (bisect_loop_split key x l1 l2); auto.
  - pose proof (len_nonneg l1). lia.
  - rewrite len_app. pose proof (len_nonneg l2). lia.
Qed.

(** The search fails when the key of its first probe, the middle line,
    does. *)
Lemma bisect_left_first_probe a x key e :
  0 < len a ->
  bind (getitem a (len a / 2)) key = Raise e ->
  bisect_left a x key = Raise e.
Proof.
  intros Hlen Hk. unfold bisect_left. simp bisect_loop.
  destruct (Z_lt_dec 0 (len a)) as [Hlt | Hge]; [| lia].
  cbn. rewrite Hk. reflexivity.
Qed.

(** The search fails as soon as the key of a line it reads does. *)
Lemma bisect_loop_probe_raises key a x lo hi m e :
  probes key a x lo hi m ->
  bind (getitem a m) key = Raise e ->
  bisect_loop key a x lo hi = Raise e.
Proof.
  intros Hp Hk.
  induction Hp as [lo hi Hlt | lo hi k m Hlt Hmid Hkx _ IH
                  | lo hi k m Hlt Hmid Hkx _ IH];
    simp bisect_loop;
    (destruct (Z_lt_dec lo hi) as [Hlt' | Hge]; [| contradiction]); cbn.
  - rewrite Hk. reflexivity.
  - rewrite Hmid. cbn. rewrite Hkx. cbn. apply IH, Hk.
  - rewrite Hmid. cbn. rewrite Hkx. cbn. apply IH, Hk.
Qed.

(** A failure of the search is the failure of the key of a line it
    read. *)
Lemma bisect_loop_raises_probe key a x lo hi e :
  bisect_loop key a x lo hi = Raise e ->
  exists m, probes key a x lo hi m /\ bind (getitem a m) key = Raise e.
Proof.
  funelim (bisect_loop key a x lo hi); intros Hr.
  - discriminate.
  - inversion Hr; subst. exists ((lo + hi) / 2).
    split; [apply probes_middle; assumption | assumption].
  - match goal with IH : forall e, _ -> exists _, _ |- _ =>
      destruct (IH e Hr) as [m [Hm Hk]] end.
    exists m. split; [| exact Hk].
    eapply probes_upper; eassumption.
  - match goal with IH : forall e, _ -> exists _, _ |- _ =>
      destruct (IH e Hr) as [m [Hm Hk]] end.
    exists m. split; [| exact Hk].
    eapply probes_lower; eassumption.
Qed.

(** At the top level the search stays inside the list. *)
Lemma bisect_left_bounds a x key index :
  bisect_left a x key = Ok index -> 0 <= index <= len a.
Proof.
  unfold bisect_left. apply bisect_loop_bounds. apply len_nonneg.
Qed.

(* --------------------------------------------------------------------- *)
(** *** Counters *)

Lemma counter_get_set (c : Counter) (k k' : string) (v : Z) :
  counter_get (counter_set c k v) k' =
  if String.eqb k k' then v else counter_get c k'.
Proof.
  induction c as [| [k0 v0] c IH]; simpl.
  - reflexivity.
  - destruct (String.eqb_spec k0 k) as [-> | Hne]; simpl.
    + destruct (String.eqb k k'); reflexivity.
    + rewrite IH.
      destruct (String.eqb_spec k0 k') as [-> | Hne'].
      * destruct (String.eqb_spec k k') as [-> | _]; [contradiction | reflexivity].
      * reflexivity.
Qed.

Lemma counter_get_incr (c : Counter) (k k' : string) :
  counter_get (counter_incr c k) k' =
  counter_get c k' + (if String.eqb k k' then 1 else 0).
Proof.
  unfold counter_incr. rewrite counter_get_set.
  destruct (String.eqb_spec k k') as [-> | _]; lia.
Qed.

Lemma counter_keys_set (c : Counter) (k k' : string) (v : Z) :
  In k' (counter_keys (counter_set c k v)) <-> k' = k \/ In k' (counter_keys c).
Proof.
  unfold counter_keys.
  induction c as [| [k0 v0] c IH]; simpl.
  - intuition.
  - destruct (String.eqb_spec k0 k) as [-> | Hne]; simpl.
    + intuition.
    + rewrite IH. intuition.
Qed.

Lemma counter_keys_set_NoDup (c : Counter) (k : string) (v : Z) :
  NoDup (counter_keys c) -> NoDup (counter_keys (counter_set c k v)).
Proof.
  unfold counter_keys.
  induction c as [| [k0 v0] c IH]; simpl; intros Hnd.
  - constructor; [intros [] | constructor].
  - inversion Hnd as [| ? ? Hnotin Hnd']; subst.
    destruct (String.eqb_spec k0 k) as [-> | Hne]; simpl.
    + constructor; assumption.
    + constructor; [| auto].
      intros Hin. apply (counter_keys_set c k k0 v) in Hin.
      destruct Hin as [-> | Hin]; [congruence | contradiction].
Qed.

(** A counter is a tally when its keys are distinct and every count is
    at least 1: what [seen[cookie] += 1] builds from the empty counter. *)
Lemma tally_incr (c : Counter) (k : string) :
  NoDup (counter_keys c) /\ Forall (fun kv => 1 <= snd kv) c ->
  NoDup (counter_keys (counter_incr c k))
  /\ Forall (fun kv => 1 <= snd kv) (counter_incr c k).
Proof.
  intros [Hnd Hpos]. split.
  - apply counter_keys_set_NoDup, Hnd.
  - unfold counter_incr.
    assert (Hget : 0 <= counter_get c k).
    { clear Hnd. induction Hpos as [| [k0 v0] c Hv _ IH]; simpl in *.
      - lia.
      - destruct (String.eqb k0 k); lia. }
    revert Hget. generalize (counter_get c k). intros v Hv.
    clear Hnd. induction Hpos as [| [k0 v0] c Hv0 Hc IH]; simpl in *.
    + constructor; [simpl; lia | constructor].
    + destruct (String.eqb k0 k); constructor; simpl; auto; lia.
Qed.

Lemma tally_get_pos (c : Counter) (k : string) :
  Forall (fun kv => 1 <= snd kv) c ->
  (In k (counter_keys c) <-> 1 <= counter_get c k).
Proof.
  unfold counter_keys.
  induction 1 as [| [k0 v0] c Hv _ IH]; simpl in *.
  - split; [tauto | lia].
  - destruct (String.eqb_spec k0 k) as [-> | Hne].
    + split; auto.
    + rewrite <- IH. intuition.
Qed.

(* --------------------------------------------------------------------- *)
(** *** The scan, index by index and line by line *)

Lemma In_firstn {A : Type} (l : list A) (n : nat) (x : A) :
  In x (firstn n l) -> In x l.
Proof.
  intros H. rewrite <- (firstn_skipn n l). apply in_or_app. now left.
Qed.

Lemma firstn_S_nth_error {A : Type} (l : list A) (n : nat) (x : A) :
  nth_error l n = Some x -> firstn (S n) l = firstn n l ++ [x].
Proof.
  revert l. induction n as [| n IH]; intros [| y l] Hn; simpl in *;
    try discriminate.
  - inversion Hn. reflexivity.
  - f_equal. apply IH, Hn.
Qed.

Section ScanFacts.

Variable strptime : string -> string -> option datetime.

(** The loop over [n - 1, ..., 0] visits the first [n] lines, last one
    first. *)
Lemma scan_loop_countdown (lines : list string) (d : date) (n : nat)
  (seen : Counter) :
  (n <= List.length lines)%nat ->
  scan_loop strptime lines d (countdown n) seen
  = scan_lines strptime (rev (firstn n lines)) d seen.
Proof.
  revert seen. induction n as [| n IH]; intros seen Hn.
  - reflexivity.
  - destruct (nth_error lines n) as [x |] eqn:Hx;
      [| apply nth_error_None in Hx; lia].
    rewrite (firstn_S_nth_error _ _ _ Hx), rev_unit.
    cbn [countdown scan_loop scan_lines].
    rewrite (getitem_of_nat _ _ _ Hx). cbn [bind].
    destruct (parse_record strptime x) as [[cookie timestamp] | e]; cbn [bind];
      [| reflexivity].
    destruct (negb (date_eqb d timestamp)); [reflexivity |].
    apply IH. lia.
Qed.

Lemma scan_loop_range_down (lines : list string) (d : date) (start : Z)
  (seen : Counter) :
  -1 <= start < len lines ->
  scan_loop strptime lines d (range_down start) seen
  = scan_lines strptime (rev (firstn (Z.to_nat (start + 1)) lines)) d seen.
Proof.
  intros H. unfold range_down. apply scan_loop_countdown. unfold len in H. lia.
Qed.

End ScanFacts.

(* ===================================================================== *)
(** ** Properties of the program *)
(* ===================================================================== *)

Section Correctness.

Variable strptime : string -> string -> option datetime.

Lemma record_of_parse_record (line cookie : string) (dt : datetime) :
  record_of strptime line = Ok (cookie, dt) ->
  parse_record strptime line = Ok (cookie, dt_date dt).
Proof.
  unfold record_of, parse_record.
  destruct (unpack2 (split "," (strip line))) as [[c ts] | e]; cbn [bind];
    [| discriminate].
  destruct (py_strptime strptime ts TIMESTAMP_FORMAT) as [dt' | e]; cbn [bind];
    [| discriminate].
  intros H. inversion H. reflexivity.
Qed.

Lemma well_formedb_sound (line : string) :
  well_formedb strptime line = true -> well_formed strptime line.
Proof.
  unfold well_formedb, well_formed.
  destruct (record_of strptime line) as [[c dt] | e]; [| discriminate].
  destruct (sort_key strptime line) as [t | e]; [| discriminate].
  intros H. apply date_eqb_eq in H. subst t. exists c, dt. auto.
Qed.

Lemma timestamp_descb_sound (a b : string) :
  timestamp_descb strptime a b = true -> timestamp_desc strptime a b.
Proof.
  unfold timestamp_descb, timestamp_desc.
  destruct (record_of strptime a) as [[ka ta] | e]; [| discriminate].
  destruct (record_of strptime b) as [[kb tb] | e]; [| discriminate].
  intros H. apply Z.leb_le in H. exists ka, ta, kb, tb. auto.
Qed.

Lemma date_descb_sound (a b : string) :
  date_descb strptime a b = true -> date_desc strptime a b.
Proof.
  unfold date_descb, date_desc.
  destruct (parse_record strptime a) as [[ka da] | e]; [| discriminate].
  destruct (parse_record strptime b) as [[kb db] | e]; [| discriminate].
  intros H. exists ka, da, kb, db. auto.
Qed.

Lemma well_formed_parses (line : string) :
  well_formed strptime line ->
  exists cookie t,
    parse_record strptime line = Ok (cookie, t)
    /\ sort_key strptime line = Ok t.
Proof.
  intros [cookie [dt [Hr Hk]]].
  exists cookie, (dt_date dt). split; [apply record_of_parse_record, Hr | exact Hk].
Qed.

(** A line [key,timestamp] followed by an end of line is well formed: the
    key holds no comma and does not start with a space, the timestamp is in
    the expected format and has no space at either end. *)
Lemma record_line_well_formed (cookie ts eol : string) (dt : datetime) :
  contains "," cookie = false -> starts_with_space cookie = false ->
  contains "," ts = false -> starts_with_space ts = false ->
  rstrip ts = ts -> ts <> EmptyString ->
  rstrip eol = EmptyString ->
  strptime ts TIMESTAMP_FORMAT = Some dt ->
  record_of strptime (cookie ++ String "," (ts ++ eol))%string = Ok (cookie, dt)
  /\ well_formed strptime (cookie ++ String "," (ts ++ eol))%string.
Proof.
  intros Hc Hcs Ht Hts Hrt Hne Heol Hdt.
  assert (Hrec : record_of strptime (cookie ++ String "," (ts ++ eol))%string
                 = Ok (cookie, dt)).
  { unfold record_of, strip. rewrite lstrip_app.
    - rewrite rstrip_app. cbn [rstrip]. rewrite rstrip_app, Heol, Hrt.
      destruct ts as [| c ts']; [congruence |].
      rewrite split_app_sep by exact Hc.
      rewrite split_no_sep by exact Ht.
      cbn [unpack2 bind]. unfold py_strptime. rewrite Hdt. reflexivity.
    - destruct cookie; [reflexivity | exact Hcs]. }
  split; [exact Hrec |].
  exists cookie, dt. split; [exact Hrec |].
  unfold sort_key. rewrite split_app_sep by exact Hc.
  rewrite split_no_sep
    by (rewrite contains_app, Ht; apply rstrip_empty_no_comma, Heol).
  change (getitem [cookie; (ts ++ eol)%string] 1) with (Ok (ts ++ eol)%string).
  cbn [bind].
  replace (strip (ts ++ eol)) with ts.
  - unfold py_strptime. rewrite Hdt. reflexivity.
  - unfold strip. rewrite lstrip_app.
    + rewrite rstrip_app, Heol, Hrt. reflexivity.
    + destruct ts; [congruence | exact Hts].
Qed.

(** *** Tallying a block *)

Lemma counter_get_tally (cookies : list string) (seen : Counter) (k : string) :
  counter_get (fold_left counter_incr cookies seen) k
  = counter_get seen k + len (filter (fun c => String.eqb c k) cookies).
Proof.
  revert seen. induction cookies as [| c cookies IH]; intros seen; simpl.
  - unfold len. simpl. lia.
  - rewrite IH, counter_get_incr.
    destruct (String.eqb c k); unfold len; simpl; lia.
Qed.

Lemma tally_fold (cookies : list string) (seen : Counter) :
  NoDup (counter_keys seen) /\ Forall (fun kv => 1 <= snd kv) seen ->
  NoDup (counter_keys (fold_left counter_incr cookies seen))
  /\ Forall (fun kv => 1 <= snd kv) (fold_left counter_incr cookies seen).
Proof.
  revert seen. induction cookies as [| c cookies IH]; intros seen H; simpl.
  - exact H.
  - apply IH, tally_incr, H.
Qed.

(** The scan counts the lines of the query day it meets first and stops
    at the first line of another day: what follows is never read. *)
Lemma scan_lines_block (d : date) (block rest : list string)
  (cookies : list string) (seen : Counter) :
  Forall2 (fun line c => parse_record strptime line = Ok (c, d)) block cookies ->
  (rest = []
   \/ exists line c t, hd_error rest = Some line
        /\ parse_record strptime line = Ok (c, t) /\ date_eqb d t = false) ->
  scan_lines strptime (block ++ rest) d seen
  = Ok (fold_left counter_incr cookies seen).
Proof.
  intros Hblock Hrest. revert seen.
  induction Hblock as [| line c block cookies Hline _ IH]; intros seen.
  - simpl. destruct Hrest as [-> | [line [c [t [Hhd [Hp Hne]]]]]].
    + reflexivity.
    + destruct rest as [| line' rest']; [discriminate |].
      simpl in Hhd. inversion Hhd; subst line'.
      simpl. rewrite Hp. cbn [bind]. rewrite Hne. reflexivity.
  - simpl. rewrite Hline. cbn [bind]. rewrite date_eqb_refl. simpl.
    apply IH.
Qed.

Lemma matching_lines_cons (line : string) (l : list string) (d : date)
  (k : string) :
  matching_lines strptime (line :: l) d k
  = (if record_matches strptime d k line then 1 else 0)
    + matching_lines strptime l d k.
Proof.
  unfold matching_lines, len. cbn [filter].
  destruct (record_matches strptime d k line); cbn [List.length]; lia.
Qed.

Lemma matching_lines_app (l1 l2 : list string) (d : date) (k : string) :
  matching_lines strptime (l1 ++ l2) d k
  = matching_lines strptime l1 d k + matching_lines strptime l2 d k.
Proof. unfold matching_lines. now rewrite filter_app, len_app. Qed.

Lemma matching_lines_rev (l : list string) (d : date) (k : string) :
  matching_lines strptime (rev l) d k = matching_lines strptime l d k.
Proof.
  induction l as [| x l IH].
  - reflexivity.
  - simpl rev. rewrite matching_lines_app, IH.
    change (x :: l) with ([x] ++ l). rewrite matching_lines_app. lia.
Qed.

Lemma matching_lines_other_day (l : list string) (d : date) (k : string) :
  Forall (day_satisfies strptime (fun t => negb (date_eqb d t))) l ->
  matching_lines strptime l d k = 0.
Proof.
  unfold matching_lines.
  induction 1 as [| x l [c [t [Hp Ht]]] _ IH]; simpl.
  - reflexivity.
  - unfold record_matches at 1. rewrite Hp.
    apply negb_true_iff in Ht. rewrite Ht. simpl. exact IH.
Qed.

Lemma matching_lines_block (d : date) (block cookies : list string) (k : string) :
  Forall2 (fun line c => parse_record strptime line = Ok (c, d)) block cookies ->
  matching_lines strptime block d k = len (filter (fun c => String.eqb c k) cookies).
Proof.
  unfold matching_lines.
  induction 1 as [| line c block cookies Hline _ IH]; simpl.
  - reflexivity.
  - unfold record_matches at 1. rewrite Hline, date_eqb_refl. simpl.
    destruct (String.eqb c k); unfold len in *; simpl; lia.
Qed.

Lemma block_cookies (d : date) (block : list string) :
  Forall (day_satisfies strptime (date_eqb d)) block ->
  exists cookies,
    Forall2 (fun line c => parse_record strptime line = Ok (c, d)) block cookies.
Proof.
  induction 1 as [| x l [c [t [Hp Ht]]] _ [cookies IH]].
  - exists []. constructor.
  - exists (c :: cookies). constructor; [| exact IH].
    apply date_eqb_eq in Ht. now subst t.
Qed.

(** *** Sorted logs *)

Lemma date_desc_trans (a b c : string) :
  date_desc strptime a b -> date_desc strptime b c -> date_desc strptime a c.
Proof.
  intros [ka [da [kb [db [Ha [Hb Hab]]]]]] [kb' [db' [kc [dc [Hb' [Hc Hbc]]]]]].
  rewrite Hb in Hb'. inversion Hb'; subst kb' db'.
  exists ka, da, kc, dc. repeat split; auto.
  eapply date_leb_trans; eassumption.
Qed.

(** A log sorted by timestamp, newest first, is sorted by day when all
    its records carry the same UTC offset. *)
Lemma same_offset_sorted_by_day (off : option Z) (lines : list string) :
  Forall (record_at_offset strptime off) lines ->
  Sorted (timestamp_desc strptime) lines ->
  Sorted (date_desc strptime) lines.
Proof.
  intros Hoff Hsorted.
  induction Hsorted as [| a l Hl IH Hhd]; [constructor |].
  inversion Hoff as [| ? ? Ha Hoff']; subst.
  constructor; [apply IH, Hoff' |].
  destruct Hhd as [| b l' Hab]; constructor.
  inversion Hoff' as [| ? ? Hb _]; subst.
  destruct Hab as [ka [ta [kb [tb [Hra [Hrb Hle]]]]]].
  destruct Ha as [ka' [ta' [Hra' [Hva Hoa]]]].
  destruct Hb as [kb' [tb' [Hrb' [Hvb Hob]]]].
  rewrite Hra in Hra'. inversion Hra'; subst ka' ta'.
  rewrite Hrb in Hrb'. inversion Hrb'; subst kb' tb'.
  exists ka, (dt_date ta), kb, (dt_date tb).
  repeat split; try (apply record_of_parse_record; assumption).
  apply utc_order_same_offset; congruence.
Qed.

(** A log sorted by day, newest first, is made of the lines after the
    query day, then the lines of the query day, then the lines before it. *)
Lemma sorted_three_way (lines : list string) (d : date) :
  Forall (well_formed strptime) lines ->
  Sorted (date_desc strptime) lines ->
  exists after same before,
    lines = after ++ same ++ before
    /\ Forall (day_satisfies strptime (fun t => date_ltb d t)) after
    /\ Forall (day_satisfies strptime (date_eqb d)) same
    /\ Forall (day_satisfies strptime (fun t => date_ltb t d)) before.
Proof.
  intros Hwf Hsorted.
  apply Sorted_StronglySorted in Hsorted;
    [| intros a b c; apply date_desc_trans].
  induction Hsorted as [| h tl Htl IH Hhd].
  - exists [], [], []. repeat split; constructor.
  - inversion Hwf as [| ? ? Hh Hwf']; subst.
    destruct (IH Hwf') as [after [same [before [Heq [Ha [Hs Hb]]]]]].
    destruct (well_formed_parses h Hh) as [c [t [Hp _]]].
    assert (Hle : forall x, In x tl ->
              exists cx tx, parse_record strptime x = Ok (cx, tx)
                            /\ date_leb tx t = true).
    { intros x Hx. rewrite Forall_forall in Hhd.
      destruct (Hhd x Hx) as [ka [da [kb [db [H1 [H2 H3]]]]]].
      rewrite Hp in H1. inversion H1; subst ka da.
      exists kb, db. auto. }
    destruct (date_ltb d t) eqn:Hdt.
    + exists (h :: after), same, before. subst tl.
      repeat split; auto. constructor; auto. exists c, t. auto.
    + assert (Hafter : after = []).
      { destruct after as [| x after']; [reflexivity | exfalso].
        inversion Ha as [| ? ? [cx [tx [Hx Hxd]]] _]; subst.
        destruct (Hle x (or_introl eq_refl)) as [cx' [tx' [Hx' Hxt]]].
        rewrite Hx in Hx'. inversion Hx'; subst cx' tx'.
        clear - Hdt Hxd Hxt. date_arith. }
      subst after. simpl in Heq.
      destruct (date_ltb t d) eqn:Htd.
      * assert (Hsame : same = []).
        { destruct same as [| x same']; [reflexivity | exfalso].
          inversion Hs as [| ? ? [cx [tx [Hx Hxd]]] _]; subst.
          destruct (Hle x (or_introl eq_refl)) as [cx' [tx' [Hx' Hxt]]].
          rewrite Hx in Hx'. inversion Hx'; subst cx' tx'.
          clear - Htd Hxd Hxt. date_arith. }
        subst same. simpl in Heq. subst tl.
        exists [], [], (h :: before).
        repeat split; auto. constructor; auto. exists c, t. auto.
      * exists [], (h :: same), before. subst tl.
        repeat split; auto. constructor; auto.
        exists c, t. split; [exact Hp |].
        rewrite date_eqb_sym. apply date_trichotomy; assumption.
Qed.

Lemma day_satisfies_sort_key (p : date -> bool) (Q : date -> Prop)
  (l : list string) :
  (forall t, p t = true -> Q t) ->
  Forall (well_formed strptime) l ->
  Forall (day_satisfies strptime p) l ->
  Forall (fun s => exists t, sort_key strptime s = Ok t /\ Q t) l.
Proof.
  intros HpQ Hwf Hp. rewrite Forall_forall in *. intros s Hs.
  destruct (well_formed_parses s (Hwf s Hs)) as [c [t [Hr Hk]]].
  destruct (Hp s Hs) as [c' [t' [Hr' Ht']]].
  rewrite Hr in Hr'. inversion Hr'; subst. exists t'. auto.
Qed.

Lemma day_satisfies_impl (p q : date -> bool) (l : list string) :
  (forall t, p t = true -> q t = true) ->
  Forall (day_satisfies strptime p) l -> Forall (day_satisfies strptime q) l.
Proof.
  intros Hpq. apply Forall_impl. intros s [c [t [Hr Ht]]].
  exists c, t. auto.
Qed.

(** *** The full scan *)

Lemma linear_scan_counts (lines : list string) (d : date) (seen : Counter) :
  Forall (fun line => exists c t, parse_record strptime line = Ok (c, t)) lines ->
  NoDup (counter_keys seen) /\ Forall (fun kv => 1 <= snd kv) seen ->
  exists brute,
    linear_scan strptime lines d seen = Ok brute
    /\ (NoDup (counter_keys brute) /\ Forall (fun kv => 1 <= snd kv) brute)
    /\ forall k, counter_get brute k
                 = counter_get seen k + matching_lines strptime lines d k.
Proof.
  intros Hall. revert seen.
  induction Hall as [| line lines [c [t Hp]] _ IH]; intros seen Htally.
  - exists seen. repeat split; try apply Htally.
    intros k. unfold matching_lines, len. simpl. lia.
  - cbn [linear_scan]. rewrite Hp. cbn [bind].
    destruct (IH (if date_eqb d t then counter_incr seen c else seen))
      as [brute [Hb [Ht Hget]]].
    { destruct (date_eqb d t); [apply tally_incr |]; exact Htally. }
    exists brute. repeat split; try apply Ht; try exact Hb.
    intros k. rewrite Hget, matching_lines_cons.
    unfold record_matches. rewrite Hp.
    destruct (date_eqb d t); simpl.
    + rewrite counter_get_incr. destruct (String.eqb c k); lia.
    + lia.
Qed.

(** *** The search and the scan together *)

Lemma Forall2_rev_both {A B : Type} (R : A -> B -> Prop) (l1 : list A)
  (l2 : list B) :
  Forall2 R l1 l2 -> Forall2 R (rev l1) (rev l2).
Proof.
  induction 1 as [| x y l1 l2 Hxy _ IH]; simpl.
  - constructor.
  - apply Forall2_app; [exact IH | constructor; [exact Hxy | constructor]].
Qed.

Lemma hd_error_In {A : Type} (l : list A) (x : A) :
  hd_error l = Some x -> In x l.
Proof. destruct l; simpl; intros H; inversion H; auto. Qed.

Lemma count_lines_sorted (lines : list string) (d : date) :
  Forall (well_formed strptime) lines ->
  Sorted (date_desc strptime) lines ->
  exists seen,
    count_lines strptime lines d = Ok seen
    /\ (NoDup (counter_keys seen) /\ Forall (fun kv => 1 <= snd kv) seen)
    /\ forall k, counter_get seen k = matching_lines strptime lines d k.
Proof.
  intros Hwf Hsorted.
  destruct (sorted_three_way lines d Hwf Hsorted)
    as [after [same [before [Heq [Ha [Hs Hb]]]]]].
  assert (Hwf3 : Forall (well_formed strptime) after
                 /\ Forall (well_formed strptime) same
                 /\ Forall (well_formed strptime) before).
  { subst lines. apply Forall_app in Hwf. destruct Hwf as [H1 H2].
    apply Forall_app in H2. tauto. }
  destruct Hwf3 as [Hwa [Hws Hwb]].
  destruct (block_cookies d same Hs) as [cookies Hcookies].
  apply Forall2_rev_both in Hcookies.
  exists (fold_left counter_incr (rev cookies) []).
  split; [| split].
  - unfold count_lines.
    assert (Hrev : rev lines = rev before ++ rev (after ++ same)).
    { subst lines. rewrite app_assoc, rev_app_distr. reflexivity. }
    rewrite Hrev, bisect_left_split.
    + cbn [bind]. rewrite len_rev.
      assert (Hstart : len lines - len before - 1 = len (after ++ same) - 1).
      { subst lines. rewrite !len_app. lia. }
      rewrite Hstart, scan_loop_range_down.
      * replace (Z.to_nat (len (after ++ same) - 1 + 1))
          with (List.length (after ++ same)) by (unfold len; lia).
        subst lines. rewrite app_assoc, firstn_app, Nat.sub_diag, firstn_all.
        simpl firstn. rewrite app_nil_r, rev_app_distr.
        apply scan_lines_block; [exact Hcookies |].
        destruct (rev after) as [| line rest] eqn:Hra; [left; reflexivity |].
        right.
        assert (Hin : In line after).
        { apply in_rev. rewrite Hra. left. reflexivity. }
        rewrite Forall_forall in Ha. destruct (Ha line Hin) as [c [t [Hp Ht]]].
        exists line, c, t. repeat split; auto. clear - Ht. date_arith.
      * subst lines. rewrite !len_app.
        pose proof (len_nonneg after). pose proof (len_nonneg same).
        pose proof (len_nonneg before). lia.
    + apply Forall_rev.
      eapply day_satisfies_sort_key; [| exact Hwb | exact Hb]. auto.
    + apply Forall_rev. apply Forall_app. split.
      * eapply day_satisfies_sort_key; [| exact Hwa | exact Ha].
        intros t Ht. simpl in Ht. clear - Ht. date_arith.
      * eapply day_satisfies_sort_key; [| exact Hws | exact Hs].
        intros t Ht. clear - Ht. date_arith.
  - apply tally_fold. split; constructor.
  - intros k. rewrite counter_get_tally.
    rewrite <- (matching_lines_block d (rev same) (rev cookies) k Hcookies).
    rewrite matching_lines_rev. subst lines. rewrite !matching_lines_app.
    rewrite (matching_lines_other_day after), (matching_lines_other_day before).
    + simpl. lia.
    + eapply day_satisfies_impl; [| exact Hb]. intros t Ht. clear - Ht. date_arith.
    + eapply day_satisfies_impl; [| exact Ha]. intros t Ht. clear - Ht. date_arith.
Qed.

(** On a log sorted by timestamp whose records all carry one UTC offset
    the table counts, for every key, the lines of that key on the query
    day. *)
Lemma count_lines_timestamp_sorted (off : option Z) (lines : list string)
  (d : date) :
  Forall (well_formed strptime) lines ->
  Forall (record_at_offset strptime off) lines ->
  Sorted (timestamp_desc strptime) lines ->
  exists seen,
    count_lines strptime lines d = Ok seen
    /\ forall k, counter_get seen k = matching_lines strptime lines d k.
Proof.
  intros Hwf Hoff Hsorted.
  destruct (count_lines_sorted lines d Hwf
              (same_offset_sorted_by_day off lines Hoff Hsorted))
    as [seen [Hseen [_ Hget]]].
  exists seen. auto.
Qed.

(** *** The run, stage by stage *)

Lemma parse_file_opened (fs : filesystem) (filename header : string)
  (lines : list string) (d : date) :
  fs filename = Some (header :: lines) ->
  parse_file strptime fs filename d = count_lines strptime lines d.
Proof.
  intros Hfs. unfold parse_file, open_. rewrite Hfs. reflexivity.
Qed.

Lemma main_after_parse_args (fs : filesystem) (args : namespace) (dt : datetime) :
  strptime (ns_date args) "%Y-%m-%d" = Some dt ->
  main strptime fs args
  = match parse_file strptime fs (ns_filename args) (dt_date dt) with
    | Raise e => mkoutcome [] [] (Raise e)
    | Ok counts =>
        match report counts with
        | Raise e => mkoutcome [] [] (Raise e)
        | Ok printed => mkoutcome printed [] (Ok tt)
        end
    end.
Proof.
  intros Hd. unfold main, parse_args. rewrite Hd. reflexivity.
Qed.

(** Nothing is printed by a run whose [parse_file] raises. *)
Lemma main_parse_file_raises (fs : filesystem) (args : namespace)
  (dt : datetime) (e : exn) :
  strptime (ns_date args) "%Y-%m-%d" = Some dt ->
  parse_file strptime fs (ns_filename args) (dt_date dt) = Raise e ->
  main strptime fs args = mkoutcome [] [] (Raise e).
Proof.
  intros Hd Hp. rewrite (main_after_parse_args fs args dt Hd), Hp. reflexivity.
Qed.

Lemma report_empty : report [] = Raise IndexError.
Proof. reflexivity. Qed.

(** *** The highest count *)

Lemma max_item_spec (x : string * Z) (xs : list (string * Z)) :
  In (max_item x xs) (x :: xs)
  /\ Forall (fun kv => snd kv <= snd (max_item x xs)) (x :: xs).
Proof.
  unfold max_item. revert x.
  induction xs as [| y ys IH]; intros x.
  - simpl. split; [auto | constructor; [lia | constructor]].
  - cbn [fold_left].
    destruct (Z.ltb_spec (snd x) (snd y)) as [Hlt | Hge].
    + destruct (IH y) as [Hin Hall]. split.
      * right. exact Hin.
      * inversion Hall as [| ? ? Hy Hys]; subst.
        constructor; [lia | constructor; assumption].
    + destruct (IH x) as [Hin Hall]. split.
      * destruct Hin as [Hin | Hin]; [left; exact Hin | right; right; exact Hin].
      * inversion Hall as [| ? ? Hx Hys]; subst.
        constructor; [assumption | constructor; [lia | assumption]].
Qed.

Lemma highest_spec (counts : Counter) :
  counts <> [] ->
  exists high,
    highest counts = Ok high
    /\ (exists k, In (k, high) counts)
    /\ Forall (fun kv => snd kv <= high) counts.
Proof.
  destruct counts as [| x xs]; [congruence | intros _].
  destruct (max_item_spec x xs) as [Hin Hall].
  exists (snd (max_item x xs)). split; [reflexivity | split].
  - exists (fst (max_item x xs)). now rewrite <- surjective_pairing.
  - exact Hall.
Qed.

Lemma counter_get_le (counts : Counter) (high : Z) (k : string) :
  Forall (fun kv => snd kv <= high) counts ->
  In k (counter_keys counts) -> counter_get counts k <= high.
Proof.
  unfold counter_keys.
  induction 1 as [| [k0 v0] c Hv _ IH]; simpl; intros Hin.
  - contradiction.
  - destruct (String.eqb_spec k0 k) as [-> | Hne]; [exact Hv |].
    apply IH. destruct Hin; [contradiction | assumption].
Qed.

(** The printing loop emits the longest prefix of the keys whose count is
    [high]. *)
Lemma report_loop_prefix (counts : Counter) (high : Z) (keys : list string) :
  exists rest,
    keys = report_loop counts high keys ++ rest
    /\ Forall (fun k => counter_get counts k = high) (report_loop counts high keys)
    /\ (rest = []
        \/ exists k, hd_error rest = Some k /\ counter_get counts k <> high).
Proof.
  induction keys as [| k keys [rest [Heq [Hall Hrest]]]]; simpl.
  - exists []. repeat split; auto.
  - destruct (Z.eqb_spec (counter_get counts k) high) as [Hk | Hk].
    + exists rest. repeat split.
      * simpl. f_equal. exact Heq.
      * constructor; assumption.
      * exact Hrest.
    + exists (k :: keys). repeat split; auto.
      right. exists k. auto.
Qed.

(** *** Scans that meet no record of the query day *)

Lemma scan_lines_no_match (visited : list string) (d : date) (seen : Counter) :
  (forall line c t, In line visited ->
     parse_record strptime line = Ok (c, t) -> date_eqb d t = false) ->
  scan_lines strptime visited d seen = Ok seen
  \/ exists e, scan_lines strptime visited d seen = Raise e
              /\ exists line, hd_error visited = Some line
                   /\ parse_record strptime line = Raise e.
Proof.
  intros Hno. destruct visited as [| line rest]; [left; reflexivity |].
  simpl. destruct (parse_record strptime line) as [[c t] | e] eqn:Hp; cbn [bind].
  - rewrite (Hno line c t (or_introl eq_refl) Hp). left. reflexivity.
  - right. exists e. split; [reflexivity |]. exists line. auto.
Qed.

Lemma count_lines_no_match (lines : list string) (d : date) :
  (forall line c t, In line lines ->
     parse_record strptime line = Ok (c, t) -> date_eqb d t = false) ->
  count_lines strptime lines d = Ok []
  \/ exists e, count_lines strptime lines d = Raise e.
Proof.
  intros Hno. unfold count_lines.
  destruct (bisect_left (rev lines) d (sort_key strptime)) as [index | e] eqn:Hb;
    cbn [bind]; [| right; exists e; reflexivity].
  apply bisect_left_bounds in Hb. rewrite len_rev in Hb.
  rewrite scan_loop_range_down by lia.
  destruct (scan_lines_no_match
              (rev (firstn (Z.to_nat (len lines - index - 1 + 1)) lines)) d [])
    as [Hok | [e [He _]]].
  - intros line c t Hin. apply Hno.
    apply in_rev in Hin. eapply In_firstn, Hin.
  - left. exact Hok.
  - right. exists e. exact He.
Qed.

Lemma bisect_left_well_formed (lines : list string) (d : date) :
  Forall (well_formed strptime) lines ->
  exists index, bisect_left (rev lines) d (sort_key strptime) = Ok index.
Proof.
  intros Hwf.
  destruct (bisect_left (rev lines) d (sort_key strptime)) as [index | e] eqn:Hb;
    [exists index; reflexivity | exfalso].
  apply bisect_loop_raises in Hb. destruct Hb as [mid [Hmid Hk]].
  destruct (getitem_nth_error (rev lines) mid Hmid) as [s [Hs Hg]].
  rewrite Hg in Hk. cbn [bind] in Hk.
  apply nth_error_In, in_rev in Hs.
  rewrite Forall_forall in Hwf.
  destruct (well_formed_parses s (Hwf s Hs)) as [c [t [_ Hkey]]].
  congruence.
Qed.

End Correctness.

(* ===================================================================== *)
(** ** The claims of the specification *)
(* ===================================================================== *)

Section Claims.

Variable strptime : string -> string -> option datetime.

(** C1 (amended).  On a log whose data lines are all well formed and
    sorted by day, newest first, the table [parse_file] returns (binary
    search on the reversed lines, then the backward scan) gives every key
    the number of data lines with that key on the query day: it holds the
    same keys with the same counts as the full scan of all data lines.
    Sorting by timestamp is enough only when it sorts the days too, as it
    does when all lines carry the same UTC offset. *)
Theorem parse_file_refines_linear_scan (fs : filesystem)
  (filename header : string) (lines : list string) (d : date) :
  fs filename = Some (header :: lines) ->
  Forall (well_formed strptime) lines ->
  Sorted (date_desc strptime) lines ->
  exists seen brute,
    parse_file strptime fs filename d = Ok seen
    /\ linear_scan strptime lines d [] = Ok brute
    /\ (forall k, counter_get seen k = counter_get brute k)
    /\ (forall k, In k (counter_keys seen) <-> In k (counter_keys brute))
    /\ (forall k, counter_get seen k = matching_lines strptime lines d k).
Proof.
  intros Hfs Hwf Hsorted.
  destruct (count_lines_sorted strptime lines d Hwf Hsorted)
    as [seen [Hseen [[Hnd Hpos] Hget]]].
  destruct (linear_scan_counts strptime lines d [])
    as [brute [Hbrute [[Hnd' Hpos'] Hget']]].
  - eapply Forall_impl; [| exact Hwf]. intros line Hline.
    destruct (well_formed_parses strptime line Hline) as [c [t [Hp _]]].
    exists c, t. exact Hp.
  - split; constructor.
  - exists seen, brute.
    rewrite (parse_file_opened strptime fs filename header lines d Hfs).
    assert (Hsame : forall k, counter_get seen k = counter_get brute k).
    { intros k. rewrite Hget, Hget'. simpl. lia. }
    repeat split; auto.
    + intros Hin. apply tally_get_pos; [exact Hpos' |].
      rewrite <- Hsame. apply tally_get_pos; assumption.
    + intros Hin. apply tally_get_pos; [exact Hpos |].
      rewrite Hsame. apply tally_get_pos; assumption.
Qed.

(** C3.  For a non-empty table the keys printed are the longest prefix of
    the keys, in insertion order, whose count is the highest count of the
    table: the loop prints while the count is the highest one and stops at
    the first key with a smaller count. *)
Theorem report_prints_longest_top_prefix (counts : Counter) :
  counts <> [] ->
  exists high printed rest,
    highest counts = Ok high
    /\ (exists k, In (k, high) counts)
    /\ Forall (fun kv => snd kv <= high) counts
    /\ report counts = Ok printed
    /\ counter_keys counts = printed ++ rest
    /\ Forall (fun k => counter_get counts k = high) printed
    /\ (rest = []
        \/ exists k, hd_error rest = Some k /\ counter_get counts k < high).
Proof.
  intros Hne.
  destruct (highest_spec counts Hne) as [high [Hhigh [Hmax Hall]]].
  destruct (report_loop_prefix counts high (counter_keys counts))
    as [rest [Heq [Hpre Hrest]]].
  exists high, (report_loop counts high (counter_keys counts)), rest.
  repeat split; auto.
  - unfold report. rewrite Hhigh. reflexivity.
  - destruct Hrest as [-> | [k [Hk Hlt]]]; [left; reflexivity | right].
    exists k. split; [exact Hk |].
    assert (Hin : In k (counter_keys counts)).
    { rewrite Heq. apply in_or_app. right. apply hd_error_In, Hk. }
    pose proof (counter_get_le counts high k Hall Hin). lia.
Qed.

(** C4.  When no data line is a record of the query day the run fails and
    prints nothing; when moreover the data lines are all well formed,
    [parse_file] returns the empty table and the failure is the
    [IndexError] of [most_common(1)[0]] on it. *)
Theorem no_match_is_an_error (fs : filesystem) (args : namespace)
  (dt : datetime) (header : string) (lines : list string) :
  strptime (ns_date args) "%Y-%m-%d" = Some dt ->
  fs (ns_filename args) = Some (header :: lines) ->
  (forall line c t, In line lines ->
     parse_record strptime line = Ok (c, t) -> date_eqb (dt_date dt) t = false) ->
  (exists e, main strptime fs args = mkoutcome [] [] (Raise e))
  /\ (Forall (well_formed strptime) lines ->
      parse_file strptime fs (ns_filename args) (dt_date dt) = Ok []
      /\ report [] = Raise IndexError
      /\ main strptime fs args = mkoutcome [] [] (Raise IndexError)).
Proof.
  intros Hd Hfs Hno.
  rewrite (main_after_parse_args strptime fs args dt Hd).
  rewrite (parse_file_opened strptime fs _ header lines _ Hfs).
  split.
  - destruct (count_lines_no_match strptime lines (dt_date dt) Hno)
      as [Hok | [e He]].
    + rewrite Hok. exists IndexError. reflexivity.
    + rewrite He. exists e. reflexivity.
  - intros Hwf.
    assert (Hok : count_lines strptime lines (dt_date dt) = Ok []).
    { unfold count_lines.
      destruct (bisect_left_well_formed strptime lines (dt_date dt) Hwf)
        as [index Hb].
      rewrite Hb. cbn [bind].
      apply bisect_left_bounds in Hb. rewrite len_rev in Hb.
      rewrite scan_loop_range_down by lia.
      destruct (scan_lines_no_match strptime
                  (rev (firstn (Z.to_nat (len lines - index - 1 + 1)) lines))
                  (dt_date dt) []) as [H | [e [_ [line [Hhd Hp]]]]]; auto.
      - intros line c t Hin. apply Hno.
        apply in_rev in Hin. eapply In_firstn, Hin.
      - exfalso. apply hd_error_In, in_rev, In_firstn in Hhd.
        rewrite Forall_forall in Hwf.
        destruct (well_formed_parses strptime line (Hwf line Hhd))
          as [c [t [Hp' _]]].
        congruence. }
    rewrite Hok. repeat split; reflexivity.
Qed.

(** C5.  When the date argument does not parse as [%Y-%m-%d] the program
    prints [Error: Invalid date format '<input>'. Expected a YYYY-MM-DD.]
    to standard error, with the argument as it was given, prints nothing to
    standard output and exits with status 1, whatever the file holds. *)
Theorem invalid_date_exits_1 (args : namespace) :
  strptime (ns_date args) "%Y-%m-%d" = None ->
  parse_args strptime args
  = ([("Error: Invalid date format '" ++ ns_date args
       ++ "'. Expected a YYYY-MM-DD.")%string],
     Raise (SystemExit 1))
  /\ forall fs,
       main strptime fs args
       = mkoutcome []
           [("Error: Invalid date format '" ++ ns_date args
             ++ "'. Expected a YYYY-MM-DD.")%string]
           (Raise (SystemExit 1)).
Proof.
  intros Hd. unfold main, parse_args. rewrite Hd. split; reflexivity.
Qed.

(** C6 (amended).  A line that fails to parse aborts the run with that
    parse error, and nothing is printed, when the run reads the line: when
    the line is one the binary search reads (the middle line of the
    reversed lines, then the middle of the half it goes on with, as long
    as the keys read before parse) and the key function fails on it, or
    when the backward scan reaches the line, all lines scanned before it
    being records of the query day.  Lines the run never reads are not
    checked. *)
Theorem parse_error_aborts_run (fs : filesystem) (args : namespace)
  (dt : datetime) (header : string) (lines : list string) (e : exn) :
  strptime (ns_date args) "%Y-%m-%d" = Some dt ->
  fs (ns_filename args) = Some (header :: lines) ->
  ((exists m line,
      probes (sort_key strptime) (rev lines) (dt_date dt) 0 (len lines) m
      /\ getitem (rev lines) m = Ok line
      /\ sort_key strptime line = Raise e)
   \/ exists index block cookies line rest,
        bisect_left (rev lines) (dt_date dt) (sort_key strptime) = Ok index
        /\ rev (firstn (Z.to_nat (len lines - index)) lines)
           = block ++ line :: rest
        /\ Forall2 (fun l c => parse_record strptime l = Ok (c, dt_date dt))
             block cookies
        /\ parse_record strptime line = Raise e) ->
  main strptime fs args = mkoutcome [] [] (Raise e).
Proof.
  intros Hd Hfs Hread.
  apply (main_parse_file_raises strptime fs args dt e Hd).
  rewrite (parse_file_opened strptime fs _ header lines _ Hfs).
  unfold count_lines.
  destruct Hread
    as [[m [line [Hp [Hg Hk]]]]
       | [index [block [cookies [line [rest [Hb [Hv [Hblock Hp]]]]]]]]].
  - unfold bisect_left. rewrite len_rev.
    rewrite (bisect_loop_probe_raises _ _ _ _ _ m e Hp); [reflexivity |].
    rewrite Hg. exact Hk.
  - rewrite Hb. cbn [bind].
    apply bisect_left_bounds in Hb. rewrite len_rev in Hb.
    rewrite scan_loop_range_down by lia.
    replace (len lines - index - 1 + 1) with (len lines - index) by lia.
    rewrite Hv. clear Hv. generalize (@nil (string * Z)).
    induction Hblock as [| l c block cookies Hl _ IH]; intros seen; simpl.
    + rewrite Hp. reflexivity.
    + rewrite Hl. cbn [bind]. rewrite date_eqb_refl. simpl. apply IH.
Qed.

(** C7.  The backward scan from [start] down to index 0 counts the key of
    each line whose day is the query day until it meets a line of another
    day, where it stops: the table it returns holds the keys of the lines
    before that line only, whatever the lines after it are. *)
Theorem scan_stops_at_first_other_day (lines : list string) (d : date)
  (start : Z) (block rest cookies : list string) (seen : Counter) :
  -1 <= start < len lines ->
  rev (firstn (Z.to_nat (start + 1)) lines) = block ++ rest ->
  Forall2 (fun line c => parse_record strptime line = Ok (c, d)) block cookies ->
  (rest = []
   \/ exists line c t, hd_error rest = Some line
        /\ parse_record strptime line = Ok (c, t) /\ date_eqb d t = false) ->
  scan_loop strptime lines d (range_down start) seen
  = Ok (fold_left counter_incr cookies seen)
  /\ forall k,
       counter_get (fold_left counter_incr cookies seen) k
       = counter_get seen k + len (filter (fun c => String.eqb c k) cookies).
Proof.
  intros Hstart Hvisited Hblock Hrest. split.
  - rewrite scan_loop_range_down by exact Hstart.
    rewrite Hvisited. apply scan_lines_block; assumption.
  - intros k. apply counter_get_tally.
Qed.

(** C8.  The first line of the file is dropped when the file is loaded:
    the table is computed from the other lines alone, so two files that
    differ in their first line only give the same table and the same
    run. *)
Theorem header_line_is_discarded (fs1 fs2 : filesystem) (filename : string)
  (header1 header2 : string) (lines : list string) :
  fs1 filename = Some (header1 :: lines) ->
  fs2 filename = Some (header2 :: lines) ->
  (forall d, parse_file strptime fs1 filename d = count_lines strptime lines d)
  /\ (forall d, parse_file strptime fs1 filename d
                = parse_file strptime fs2 filename d)
  /\ (forall args, ns_filename args = filename ->
        main strptime fs1 args = main strptime fs2 args).
Proof.
  intros H1 H2.
  assert (Hsame : forall d, parse_file strptime fs1 filename d
                            = parse_file strptime fs2 filename d).
  { intros d.
    rewrite (parse_file_opened strptime fs1 filename header1 lines d H1).
    rewrite (parse_file_opened strptime fs2 filename header2 lines d H2).
    reflexivity. }
  repeat split.
  - intros d. apply (parse_file_opened strptime fs1 filename header1 lines d H1).
  - exact Hsame.
  - intros args Hf. unfold main, parse_args.
    destruct (strptime (ns_date args) "%Y-%m-%d") as [dt |]; [| reflexivity].
    rewrite Hf, Hsame. reflexivity.
Qed.

(** C10.  The start index [len(lines) - index - 1] computed from the
    result of the binary search lies between -1 and [len(lines) - 1], every
    index of the scan loop is an index of a line, and when the search
    returns [len(lines)] the loop does not run and the table is empty. *)
Theorem scan_indices_in_bounds (lines : list string) (d : date) (index : Z) :
  bisect_left (rev lines) d (sort_key strptime) = Ok index ->
  -1 <= len lines - index - 1 <= len lines - 1
  /\ Forall (fun i => 0 <= i < len lines /\ exists line, getitem lines i = Ok line)
       (range_down (len lines - index - 1))
  /\ (index = len lines ->
      range_down (len lines - index - 1) = []
      /\ count_lines strptime lines d = Ok []).
Proof.
  intros Hb. pose proof (bisect_left_bounds _ _ _ _ Hb) as Hidx.
  rewrite len_rev in Hidx. split; [lia | split].
  - eapply Forall_impl; [| apply range_down_bounds].
    intros i Hi. simpl in Hi.
    assert (Hin : 0 <= i < len lines) by lia.
    split; [exact Hin |].
    destruct (getitem_nth_error lines i Hin) as [line [_ Hg]].
    exists line. exact Hg.
  - intros ->. unfold count_lines. rewrite Hb. cbn [bind].
    rewrite range_down_neg by lia. split; reflexivity.
Qed.

End Claims.

(* ===================================================================== *)
(** ** The claims on concrete logs *)
(* ===================================================================== *)

Ltac all_lines_by_computation :=
  match goal with
  | |- Forall (well_formed _) _ =>
      apply (forallb_Forall (well_formedb strptime_fixed));
      [apply well_formedb_sound | vm_compute; reflexivity]
  | |- Sorted (date_desc _) _ =>
      apply (sortedb_Sorted (date_descb strptime_fixed));
      [apply date_descb_sound | vm_compute; reflexivity]
  | |- Sorted (timestamp_desc _) _ =>
      apply (sortedb_Sorted (timestamp_descb strptime_fixed));
      [apply timestamp_descb_sound | vm_compute; reflexivity]
  end.

(** C1, as stated, fails on a log sorted by timestamp whose lines carry
    different UTC offsets: [b]'s record is on 2018-12-09 in its own offset
    and older than [a]'s record of 2018-12-08, the search on the days
    finds no line of 2018-12-09 and the table is empty, while the full scan
    counts [b] once. *)
Lemma timestamp_sorted_log_miscounted :
  Forall (well_formed strptime_fixed) (tl mixed_offset_log)
  /\ Sorted (timestamp_desc strptime_fixed) (tl mixed_offset_log)
  /\ parse_file strptime_fixed (one_file mixed_offset_log) "cookie_log.csv"
       (mkdate 2018 12 9) = Ok []
  /\ linear_scan strptime_fixed (tl mixed_offset_log) (mkdate 2018 12 9) []
     = Ok [("b", 1)]
  /\ matching_lines strptime_fixed (tl mixed_offset_log) (mkdate 2018 12 9) "b"
     = 1.
Proof.
  split; [all_lines_by_computation |].
  split; [all_lines_by_computation |].
  repeat split; vm_compute; reflexivity.
Qed.

Lemma parse_file_refines_linear_scan_witness :
  Forall (well_formed strptime_fixed) (tl sample_log)
  /\ Sorted (date_desc strptime_fixed) (tl sample_log)
  /\ exists seen brute,
       parse_file strptime_fixed sample_fs "cookie_log.csv" (mkdate 2018 12 9)
       = Ok seen
       /\ linear_scan strptime_fixed (tl sample_log) (mkdate 2018 12 9) []
          = Ok brute
       /\ (forall k, counter_get seen k = counter_get brute k)
       /\ (forall k, In k (counter_keys seen) <-> In k (counter_keys brute))
       /\ (forall k, counter_get seen k
                     = matching_lines strptime_fixed (tl sample_log)
                         (mkdate 2018 12 9) k).
Proof.
  assert (Hwf : Forall (well_formed strptime_fixed) (tl sample_log))
    by all_lines_by_computation.
  assert (Hsorted : Sorted (date_desc strptime_fixed) (tl sample_log))
    by all_lines_by_computation.
  split; [exact Hwf | split; [exact Hsorted |]].
  exact (parse_file_refines_linear_scan strptime_fixed sample_fs
           "cookie_log.csv" (hd "" sample_log) (tl sample_log)
           (mkdate 2018 12 9) eq_refl Hwf Hsorted).
Defined.

(** C2 (defect of the code, on an input).  On a well-formed sorted log in
    which [A] is seen twice and [B] once on 2018-12-09, [B] being the
    oldest record of the day, the table is right but the run prints
    nothing: the loop meets [B] first, whose count is not the highest, and
    stops before [A]. *)
Theorem early_break_misses_top_key :
  Forall (well_formed strptime_fixed) (tl late_leader_log)
  /\ Sorted (timestamp_desc strptime_fixed) (tl late_leader_log)
  /\ Sorted (date_desc strptime_fixed) (tl late_leader_log)
  /\ parse_file strptime_fixed (one_file late_leader_log) "cookie_log.csv"
       (mkdate 2018 12 9) = Ok [("B", 1); ("A", 2)]
  /\ highest [("B", 1); ("A", 2)] = Ok 2
  /\ main strptime_fixed (one_file late_leader_log)
       (mknamespace "cookie_log.csv" "2018-12-09")
     = mkoutcome [] [] (Ok tt).
Proof.
  split; [all_lines_by_computation |].
  split; [all_lines_by_computation |].
  split; [all_lines_by_computation |].
  repeat split; vm_compute; reflexivity.
Qed.

Lemma report_prints_longest_top_prefix_witness :
  exists high printed rest,
    highest [("AtY0laUfhglK3lC7", 2); ("5UAVanZf6UtGyKVS", 1);
             ("SAZuXPGUrfbcn5UA", 1)] = Ok high
    /\ (exists k, In (k, high)
                    [("AtY0laUfhglK3lC7", 2); ("5UAVanZf6UtGyKVS", 1);
                     ("SAZuXPGUrfbcn5UA", 1)])
    /\ Forall (fun kv => snd kv <= high)
         [("AtY0laUfhglK3lC7", 2); ("5UAVanZf6UtGyKVS", 1);
          ("SAZuXPGUrfbcn5UA", 1)]
    /\ report [("AtY0laUfhglK3lC7", 2); ("5UAVanZf6UtGyKVS", 1);
               ("SAZuXPGUrfbcn5UA", 1)] = Ok printed
    /\ counter_keys [("AtY0laUfhglK3lC7", 2); ("5UAVanZf6UtGyKVS", 1);
                     ("SAZuXPGUrfbcn5UA", 1)] = printed ++ rest
    /\ Forall (fun k => counter_get
                          [("AtY0laUfhglK3lC7", 2); ("5UAVanZf6UtGyKVS", 1);
                           ("SAZuXPGUrfbcn5UA", 1)] k = high) printed
    /\ (rest = []
        \/ exists k, hd_error rest = Some k
             /\ counter_get [("AtY0laUfhglK3lC7", 2); ("5UAVanZf6UtGyKVS", 1);
                             ("SAZuXPGUrfbcn5UA", 1)] k < high).
Proof.
  apply (report_prints_longest_top_prefix
           [("AtY0laUfhglK3lC7", 2); ("5UAVanZf6UtGyKVS", 1);
            ("SAZuXPGUrfbcn5UA", 1)]).
  discriminate.
Defined.

Lemma no_record_on (d : date) (lines : list string) :
  forallb (fun line =>
             match parse_record strptime_fixed line with
             | Ok (_, t) => negb (date_eqb d t)
             | Raise _ => true
             end) lines = true ->
  forall line c t, In line lines ->
    parse_record strptime_fixed line = Ok (c, t) -> date_eqb d t = false.
Proof.
  intros H line c t Hin Hp. rewrite forallb_forall in H.
  specialize (H line Hin). rewrite Hp in H. now apply negb_true_iff.
Qed.

Lemma no_match_is_an_error_witness :
  Forall (well_formed strptime_fixed) (tl sample_log)
  /\ (exists e, main strptime_fixed sample_fs
                  (mknamespace "cookie_log.csv" "2018-12-07")
                = mkoutcome [] [] (Raise e))
  /\ parse_file strptime_fixed sample_fs "cookie_log.csv" (mkdate 2018 12 7)
     = Ok []
  /\ report [] = Raise IndexError
  /\ main strptime_fixed sample_fs (mknamespace "cookie_log.csv" "2018-12-07")
     = mkoutcome [] [] (Raise IndexError).
Proof.
  assert (Hwf : Forall (well_formed strptime_fixed) (tl sample_log))
    by all_lines_by_computation.
  destruct (no_match_is_an_error strptime_fixed sample_fs
              (mknamespace "cookie_log.csv" "2018-12-07")
              (mkdatetime (mkdate 2018 12 7) 0 0 0 None)
              (hd "" sample_log) (tl sample_log) eq_refl eq_refl
              (no_record_on (mkdate 2018 12 7) (tl sample_log) eq_refl))
    as [Hfails Hempty].
  split; [exact Hwf | split; [exact Hfails | exact (Hempty Hwf)]].
Defined.

Lemma invalid_date_exits_1_witness :
  strptime_fixed "2018/12/09" "%Y-%m-%d" = None
  /\ parse_args strptime_fixed (mknamespace "cookie_log.csv" "2018/12/09")
     = (["Error: Invalid date format '2018/12/09'. Expected a YYYY-MM-DD."],
        Raise (SystemExit 1))
  /\ forall fs,
       main strptime_fixed fs (mknamespace "cookie_log.csv" "2018/12/09")
       = mkoutcome []
           ["Error: Invalid date format '2018/12/09'. Expected a YYYY-MM-DD."]
           (Raise (SystemExit 1)).
Proof.
  split; [reflexivity |].
  exact (invalid_date_exits_1 strptime_fixed
           (mknamespace "cookie_log.csv" "2018/12/09") eq_refl).
Defined.

(** C6, as stated, fails on a log whose malformed line is never read: the
    query for 2018-12-08 probes [x], [y] and [z], scans [z], [y] and stops
    at [x]; the run prints [z] and [y] and ends normally. *)
Lemma unread_garbage_is_ignored :
  In ("garbage" ++ LF)%string (tl unread_garbage_log)
  /\ parse_record strptime_fixed ("garbage" ++ LF) = Raise ValueError
  /\ sort_key strptime_fixed ("garbage" ++ LF) = Raise IndexError
  /\ main strptime_fixed (one_file unread_garbage_log)
       (mknamespace "cookie_log.csv" "2018-12-08")
     = mkoutcome ["z"; "y"] [] (Ok tt).
Proof.
  split; [left; reflexivity |].
  repeat split; vm_compute; reflexivity.
Qed.

Lemma parse_error_aborts_run_witness :
  (probes (sort_key strptime_fixed) (rev (tl second_probe_garbage_log))
     (mkdate 2018 12 8) 0 (len (tl second_probe_garbage_log)) 1
   /\ getitem (rev (tl second_probe_garbage_log)) 1 = Ok ("oops" ++ LF)%string
   /\ sort_key strptime_fixed ("oops" ++ LF) = Raise IndexError
   /\ main strptime_fixed (one_file second_probe_garbage_log)
        (mknamespace "cookie_log.csv" "2018-12-08")
      = mkoutcome [] [] (Raise IndexError))
  /\ (parse_record strptime_fixed ("oops" ++ LF) = Raise ValueError
      /\ main strptime_fixed (one_file reached_garbage_log)
           (mknamespace "cookie_log.csv" "2018-12-08")
         = mkoutcome [] [] (Raise ValueError)).
Proof.
  assert (Hprobe : probes (sort_key strptime_fixed)
                     (rev (tl second_probe_garbage_log)) (mkdate 2018 12 8)
                     0 (len (tl second_probe_garbage_log)) 1).
  { apply (probes_lower _ _ _ 0 4 (mkdate 2018 12 8) 1);
      [lia | reflexivity | reflexivity |].
    apply (probes_middle _ _ _ 0 2). lia. }
  split.
  - split; [exact Hprobe | split; [reflexivity | split; [reflexivity |]]].
    apply (parse_error_aborts_run strptime_fixed
             (one_file second_probe_garbage_log)
             (mknamespace "cookie_log.csv" "2018-12-08")
             (mkdatetime (mkdate 2018 12 8) 0 0 0 None)
             (hd "" second_probe_garbage_log) (tl second_probe_garbage_log)
             IndexError eq_refl eq_refl).
    left. exists 1, ("oops" ++ LF)%string.
    split; [exact Hprobe | split; reflexivity].
  - split; [reflexivity |].
    apply (parse_error_aborts_run strptime_fixed (one_file reached_garbage_log)
             (mknamespace "cookie_log.csv" "2018-12-08")
             (mkdatetime (mkdate 2018 12 8) 0 0 0 None)
             (hd "" reached_garbage_log) (tl reached_garbage_log) ValueError
             eq_refl eq_refl).
    right.
    exists 0, [("z,2018-12-08T21:30:00+0000" ++ LF)%string;
               ("y,2018-12-08T22:03:00+0000" ++ LF)%string],
      ["z"; "y"], ("oops" ++ LF)%string, [].
    split; [vm_compute; reflexivity |].
    split; [reflexivity |].
    split; [| reflexivity].
    repeat constructor.
Defined.

Lemma scan_stops_at_first_other_day_witness :
  scan_loop strptime_fixed (tl sample_log) (mkdate 2018 12 8) (range_down 5) []
  = Ok (fold_left counter_incr ["4sMM2LxV07bPJzwf"; "SAZuXPGUrfbcn5UA"] [])
  /\ forall k,
       counter_get
         (fold_left counter_incr ["4sMM2LxV07bPJzwf"; "SAZuXPGUrfbcn5UA"] []) k
       = counter_get [] k
         + len (filter (fun c => String.eqb c k)
                  ["4sMM2LxV07bPJzwf"; "SAZuXPGUrfbcn5UA"]).
Proof.
  apply (scan_stops_at_first_other_day strptime_fixed (tl sample_log)
           (mkdate 2018 12 8) 5
           [("4sMM2LxV07bPJzwf,2018-12-08T21:30:00+0000" ++ LF)%string;
            ("SAZuXPGUrfbcn5UA,2018-12-08T22:03:00+0000" ++ LF)%string]
           [("AtY0laUfhglK3lC7,2018-12-09T06:19:00+0000" ++ LF)%string;
            ("5UAVanZf6UtGyKVS,2018-12-09T07:25:00+0000" ++ LF)%string;
            ("SAZuXPGUrfbcn5UA,2018-12-09T10:13:00+0000" ++ LF)%string;
            ("AtY0laUfhglK3lC7,2018-12-09T14:19:00+0000" ++ LF)%string]
           ["4sMM2LxV07bPJzwf"; "SAZuXPGUrfbcn5UA"] []).
  - unfold len. simpl. lia.
  - reflexivity.
  - repeat constructor.
  - right.
    exists ("AtY0laUfhglK3lC7,2018-12-09T06:19:00+0000" ++ LF)%string,
      "AtY0laUfhglK3lC7", (mkdate 2018 12 9).
    repeat split.
Defined.

Lemma header_line_is_discarded_witness :
  (forall d, parse_file strptime_fixed sample_fs "cookie_log.csv" d
             = count_lines strptime_fixed (tl sample_log) d)
  /\ (forall d, parse_file strptime_fixed sample_fs "cookie_log.csv" d
                = parse_file strptime_fixed (one_file record_header_log)
                    "cookie_log.csv" d)
  /\ (forall args, ns_filename args = "cookie_log.csv" ->
        main strptime_fixed sample_fs args
        = main strptime_fixed (one_file record_header_log) args).
Proof.
  exact (header_line_is_discarded strptime_fixed sample_fs
           (one_file record_header_log) "cookie_log.csv"
           (hd "" sample_log) (hd "" record_header_log) (tl sample_log)
           eq_refl eq_refl).
Defined.

Lemma scan_indices_in_bounds_witness :
  bisect_left (rev (tl sample_log)) (mkdate 2018 12 10)
    (sort_key strptime_fixed) = Ok 6
  /\ -1 <= len (tl sample_log) - 6 - 1 <= len (tl sample_log) - 1
  /\ Forall (fun i => 0 <= i < len (tl sample_log)
                      /\ exists line, getitem (tl sample_log) i = Ok line)
       (range_down (len (tl sample_log) - 6 - 1))
  /\ (6 = len (tl sample_log) ->
      range_down (len (tl sample_log) - 6 - 1) = []
      /\ count_lines strptime_fixed (tl sample_log) (mkdate 2018 12 10) = Ok []).
Proof.
  assert (Hb : bisect_left (rev (tl sample_log)) (mkdate 2018 12 10)
                 (sort_key strptime_fixed) = Ok 6)
    by (vm_compute; reflexivity).
  split; [exact Hb |].
  exact (scan_indices_in_bounds strptime_fixed (tl sample_log)
           (mkdate 2018 12 10) 6 Hb).
Defined.

(* ===================================================================== *)
(** ** Further properties of the program *)
(* ===================================================================== *)

(** *** Fields of a line *)

Lemma count_char_app (c : ascii) (a b : string) :
  count_char c (a ++ b)%string = (count_char c a + count_char c b)%nat.
Proof.
  induction a as [| c' a IH]; simpl; [reflexivity | rewrite IH; lia].
Qed.

Lemma count_char_contains (c : ascii) (s : string) :
  contains c s = false <-> count_char c s = O.
Proof.
  induction s as [| c' s IH]; simpl.
  - tauto.
  - rewrite orb_false_iff, IH. destruct (Ascii.eqb c' c); simpl; split.
    + intros [H _]. discriminate.
    + discriminate.
    + tauto.
    + tauto.
Qed.

Lemma count_char_lstrip (c : ascii) (s : string) :
  isspace c = false -> count_char c (lstrip s) = count_char c s.
Proof.
  intros Hc. induction s as [| c' s IH]; simpl.
  - reflexivity.
  - destruct (isspace c') eqn:Hc'; [| reflexivity].
    rewrite IH. destruct (Ascii.eqb_spec c' c) as [-> | _]; [congruence | reflexivity].
Qed.

Lemma count_char_rstrip (c : ascii) (s : string) :
  isspace c = false -> count_char c (rstrip s) = count_char c s.
Proof.
  intros Hc. induction s as [| c' s IH]; simpl.
  - reflexivity.
  - destruct (rstrip s) as [| c'' r] eqn:Hr.
    + rewrite <- IH. simpl.
      destruct (isspace c') eqn:Hc'; simpl.
      * destruct (Ascii.eqb_spec c' c) as [-> | _]; [congruence | reflexivity].
      * lia.
    + rewrite <- IH. reflexivity.
Qed.

Lemma count_char_strip (c : ascii) (s : string) :
  isspace c = false -> count_char c (strip s) = count_char c s.
Proof.
  intros Hc. unfold strip. now rewrite count_char_rstrip, count_char_lstrip.
Qed.

Lemma split_length (sep : ascii) (s : string) :
  List.length (split sep s) = S (count_char sep s).
Proof.
  induction s as [| c s IH]; simpl.
  - reflexivity.
  - destruct (Ascii.eqb c sep); simpl.
    + now rewrite IH.
    + destruct (split sep s) as [| f fs]; simpl in *; [discriminate | exact IH].
Qed.

Lemma unpack2_length {A : Type} (l : list A) :
  List.length l <> 2%nat -> unpack2 l = Raise ValueError.
Proof.
  destruct l as [| a [| b [| c l]]]; simpl; intros H; congruence.
Qed.

Lemma getitem_out_of_range {A : Type} (l : list A) (i : Z) :
  len l <= i -> getitem l i = Raise IndexError.
Proof.
  unfold len, getitem. intros H.
  destruct (i <? 0) eqn:Hneg; [lia |].
  replace (i <? Z.of_nat (List.length l)) with false by (symmetry; lia).
  now rewrite andb_false_r.
Qed.

Section Parsers.

Variable strptime : string -> string -> option datetime.

(** X1.  A line of the form [key,timestamp] followed by white space is
    read the same way by the two parsers of [parse_file]: the scan gets the
    key and the day of the timestamp, the key function of the search gets
    the same day. *)
Theorem both_parsers_read_record_line (cookie ts eol : string) (dt : datetime) :
  contains "," cookie = false -> starts_with_space cookie = false ->
  contains "," ts = false -> starts_with_space ts = false ->
  rstrip ts = ts -> ts <> EmptyString ->
  rstrip eol = EmptyString ->
  strptime ts TIMESTAMP_FORMAT = Some dt ->
  parse_record strptime (cookie ++ String "," (ts ++ eol))%string
  = Ok (cookie, dt_date dt)
  /\ sort_key strptime (cookie ++ String "," (ts ++ eol))%string
     = Ok (dt_date dt).
Proof.
  intros Hc Hcs Ht Hts Hrt Hne Heol Hdt.
  destruct (record_line_well_formed strptime cookie ts eol dt
              Hc Hcs Ht Hts Hrt Hne Heol Hdt) as [Hrec [c [dt' [Hrec' Hkey]]]].
  rewrite Hrec in Hrec'. inversion Hrec'; subst c dt'.
  split; [apply record_of_parse_record, Hrec | exact Hkey].
Qed.

Lemma wrong_field_count_is_ValueError_aux (line : string) :
  count_char "," line <> 1%nat ->
  parse_record strptime line = Raise ValueError.
Proof.
  intros Hn. unfold parse_record.
  rewrite unpack2_length; [reflexivity |].
  rewrite split_length, count_char_strip by reflexivity. lia.
Qed.

(** X2.  The scan accepts a line only when it holds exactly one comma:
    with none or with more than one, unpacking the fields raises
    [ValueError] before the timestamp is looked at; with exactly one the
    stripped line splits into a key and a timestamp. *)
Theorem wrong_field_count_is_ValueError (line : string) :
  (count_char "," line <> 1%nat ->
   parse_record strptime line = Raise ValueError)
  /\ (count_char "," line = 1%nat ->
      exists cookie ts, split "," (strip line) = [cookie; ts]).
Proof.
  split; [apply wrong_field_count_is_ValueError_aux |].
  intros H1.
  pose proof (split_length "," (strip line)) as Hlen.
  rewrite count_char_strip, H1 in Hlen by reflexivity.
  destruct (split "," (strip line)) as [| a [| b [| c l]]]; try discriminate.
  exists a, b. reflexivity.
Qed.

(** X3.  The key function of the search raises [IndexError] on a line
    without a comma: there is no second field to read. *)
Theorem key_of_line_without_comma (line : string) :
  contains "," line = false ->
  sort_key strptime line = Raise IndexError.
Proof.
  intros Hc. unfold sort_key.
  rewrite (split_no_sep _ _ Hc), getitem_out_of_range; [reflexivity |].
  unfold len. simpl. lia.
Qed.

(** X4.  The two parsers disagree on a line with more than two fields: the
    key function of the search reads the second field and ignores the
    others, while the scan raises [ValueError] on the line. *)
Theorem search_ignores_extra_fields (cookie ts extra : string) (dt : datetime) :
  contains "," cookie = false -> contains "," ts = false ->
  strptime (strip ts) TIMESTAMP_FORMAT = Some dt ->
  sort_key strptime (cookie ++ String "," (ts ++ String "," extra))%string
  = Ok (dt_date dt)
  /\ parse_record strptime (cookie ++ String "," (ts ++ String "," extra))%string
     = Raise ValueError.
Proof.
  intros Hc Ht Hdt. split.
  - unfold sort_key. rewrite split_app_sep by exact Hc.
    rewrite split_app_sep by exact Ht.
    change 1 with (Z.of_nat 1).
    rewrite (getitem_of_nat (cookie :: ts :: split "," extra) 1 ts eq_refl).
    cbn [bind]. unfold py_strptime. rewrite Hdt. reflexivity.
  - apply wrong_field_count_is_ValueError_aux.
    rewrite count_char_app. simpl. rewrite count_char_app. simpl. lia.
Qed.

End Parsers.

(** *** Tables *)

Lemma counter_get_absent (c : Counter) (k : string) :
  ~ In k (counter_keys c) -> counter_get c k = 0.
Proof.
  unfold counter_keys.
  induction c as [| [k0 v0] c IH]; simpl; intros Hn.
  - reflexivity.
  - destruct (String.eqb_spec k0 k) as [-> | Hne]; [tauto |].
    apply IH. tauto.
Qed.

Lemma counter_keys_set_order (c : Counter) (k : string) (v : Z) :
  counter_keys (counter_set c k v) = note_key (counter_keys c) k.
Proof.
  unfold counter_keys, note_key.
  induction c as [| [k0 v0] c IH]; simpl.
  - reflexivity.
  - rewrite (String.eqb_sym k k0).
    destruct (String.eqb k0 k); simpl; [reflexivity |].
    rewrite IH. destruct (existsb (String.eqb k) (map fst c)); reflexivity.
Qed.

Lemma counter_keys_tally (cookies : list string) (seen : Counter) :
  counter_keys (fold_left counter_incr cookies seen)
  = fold_left note_key cookies (counter_keys seen).
Proof.
  revert seen. induction cookies as [| c cookies IH]; intros seen; simpl.
  - reflexivity.
  - rewrite IH. unfold counter_incr. now rewrite counter_keys_set_order.
Qed.

Lemma counter_get_all_equal (counts : Counter) (v : Z) (k : string) :
  Forall (fun kv => snd kv = v) counts ->
  In k (counter_keys counts) -> counter_get counts k = v.
Proof.
  unfold counter_keys.
  induction 1 as [| [k0 v0] c Hv _ IH]; simpl; intros Hin.
  - contradiction.
  - destruct (String.eqb_spec k0 k) as [-> | Hne]; [exact Hv |].
    apply IH. destruct Hin; [contradiction | assumption].
Qed.

Lemma report_loop_all (counts : Counter) (high : Z) (keys : list string) :
  Forall (fun k => counter_get counts k = high) keys ->
  report_loop counts high keys = keys.
Proof.
  induction 1 as [| k keys Hk _ IH]; simpl.
  - reflexivity.
  - rewrite Hk, Z.eqb_refl, IH. reflexivity.
Qed.

Section Tables.

Variable strptime : string -> string -> option datetime.

Lemma matching_lines_nonneg (l : list string) (d : date) (k : string) :
  0 <= matching_lines strptime l d k.
Proof. unfold matching_lines. apply len_nonneg. Qed.

Lemma matching_lines_firstn (l : list string) (n : nat) (d : date) (k : string) :
  matching_lines strptime (firstn n l) d k <= matching_lines strptime l d k.
Proof.
  rewrite <- (firstn_skipn n l) at 2. rewrite matching_lines_app.
  pose proof (matching_lines_nonneg (skipn n l) d k). lia.
Qed.

(** Whenever the scan returns, it has counted a run of lines of the query
    day and stopped at the end of the lines or at a line of another day. *)
Lemma scan_lines_inv (visited : list string) (d : date) (seen seen' : Counter) :
  scan_lines strptime visited d seen = Ok seen' ->
  exists block cookies rest,
    visited = block ++ rest
    /\ Forall2 (fun line c => parse_record strptime line = Ok (c, d)) block cookies
    /\ seen' = fold_left counter_incr cookies seen
    /\ (rest = []
        \/ exists line c t, hd_error rest = Some line
             /\ parse_record strptime line = Ok (c, t) /\ date_eqb d t = false).
Proof.
  revert seen. induction visited as [| line visited IH]; intros seen H.
  - simpl in H. inversion H; subst. exists [], [], [].
    split; [reflexivity | split; [constructor | split; [reflexivity | now left]]].
  - simpl in H.
    destruct (parse_record strptime line) as [[c t] | e] eqn:Hp; cbn [bind] in H;
      [| discriminate].
    destruct (date_eqb d t) eqn:Hdt; simpl in H.
    + destruct (IH _ H) as [block [cookies [rest [Hv [Hb [Hs Hr]]]]]].
      exists (line :: block), (c :: cookies), rest.
      split; [simpl; now rewrite Hv |].
      split; [| split; [exact Hs | exact Hr]].
      constructor; [| exact Hb]. apply date_eqb_eq in Hdt. now subst t.
    + inversion H; subst. exists [], [], (line :: visited).
      split; [reflexivity | split; [constructor | split; [reflexivity |]]].
      right. exists line, c, t. auto.
Qed.

(** Whatever the log, the table the search and the scan return is a tally
    that counts no key more often than the log holds it on the query day. *)
Lemma count_lines_sound (lines : list string) (d : date) (seen : Counter) :
  count_lines strptime lines d = Ok seen ->
  NoDup (counter_keys seen)
  /\ Forall (fun kv => 1 <= snd kv) seen
  /\ forall k, counter_get seen k <= matching_lines strptime lines d k.
Proof.
  unfold count_lines. intros H.
  destruct (bisect_left (rev lines) d (sort_key strptime)) as [index | e] eqn:Hb;
    cbn [bind] in H; [| discriminate].
  apply bisect_left_bounds in Hb. rewrite len_rev in Hb.
  rewrite scan_loop_range_down in H by lia.
  destruct (scan_lines_inv _ _ _ _ H) as [block [cookies [rest [Hv [Hblock [Hs _]]]]]].
  subst seen.
  destruct (tally_fold cookies []) as [Hnd Hpos]; [split; constructor |].
  repeat split; auto.
  intros k. rewrite counter_get_tally. simpl.
  rewrite <- (matching_lines_block strptime d block cookies k Hblock).
  pose proof (matching_lines_firstn lines
                (Z.to_nat (len lines - index - 1 + 1)) d k) as Hle.
  rewrite <- (matching_lines_rev strptime (firstn _ lines)), Hv,
    matching_lines_app in Hle.
  pose proof (matching_lines_nonneg rest d k). lia.
Qed.

Lemma cookie_on_other_day (d : date) (l : list string) :
  Forall (day_satisfies strptime (fun t => negb (date_eqb d t))) l ->
  flat_map (cookie_on strptime d) l = [].
Proof.
  induction 1 as [| x l [c [t [Hp Ht]]] _ IH]; simpl.
  - reflexivity.
  - unfold cookie_on at 1. rewrite Hp.
    apply negb_true_iff in Ht. rewrite Ht. exact IH.
Qed.

Lemma cookie_on_block (d : date) (block cookies : list string) :
  Forall2 (fun line c => parse_record strptime line = Ok (c, d)) block cookies ->
  flat_map (cookie_on strptime d) block = cookies.
Proof.
  induction 1 as [| line c block cookies Hline _ IH]; simpl.
  - reflexivity.
  - unfold cookie_on at 1. rewrite Hline, date_eqb_refl, IH. reflexivity.
Qed.

(** On a well-formed log sorted by day the table is the tally of the keys
    of the query day, taken from the last line of the log upward. *)
Lemma count_lines_sorted_tally (lines : list string) (d : date) :
  Forall (well_formed strptime) lines ->
  Sorted (date_desc strptime) lines ->
  count_lines strptime lines d
  = Ok (fold_left counter_incr (day_cookies strptime lines d) []).
Proof.
  intros Hwf Hsorted.
  destruct (sorted_three_way strptime lines d Hwf Hsorted)
    as [after [same [before [Heq [Ha [Hs Hb]]]]]].
  assert (Hwf3 : Forall (well_formed strptime) after
                 /\ Forall (well_formed strptime) same
                 /\ Forall (well_formed strptime) before).
  { subst lines. apply Forall_app in Hwf. destruct Hwf as [H1 H2].
    apply Forall_app in H2. tauto. }
  destruct Hwf3 as [Hwa [Hws Hwb]].
  destruct (block_cookies strptime d same Hs) as [cookies Hcookies].
  apply Forall2_rev_both in Hcookies.
  assert (Hday : day_cookies strptime lines d = rev cookies).
  { unfold day_cookies. subst lines.
    rewrite !rev_app_distr, !flat_map_app.
    rewrite (cookie_on_block d _ _ Hcookies).
    rewrite !cookie_on_other_day.
    - now rewrite app_nil_r.
    - apply Forall_rev. eapply day_satisfies_impl; [| exact Ha].
      intros t Ht. clear - Ht. date_arith.
    - apply Forall_rev. eapply day_satisfies_impl; [| exact Hb].
      intros t Ht. clear - Ht. date_arith. }
  rewrite Hday. unfold count_lines.
  assert (Hrev : rev lines = rev before ++ rev (after ++ same)).
  { subst lines. rewrite app_assoc, rev_app_distr. reflexivity. }
  rewrite Hrev, bisect_left_split.
  - cbn [bind]. rewrite len_rev.
    assert (Hstart : len lines - len before - 1 = len (after ++ same) - 1).
    { subst lines. rewrite !len_app. lia. }
    rewrite Hstart, scan_loop_range_down.
    + replace (Z.to_nat (len (after ++ same) - 1 + 1))
        with (List.length (after ++ same)) by (unfold len; lia).
      subst lines. rewrite app_assoc, firstn_app, Nat.sub_diag, firstn_all.
      simpl firstn. rewrite app_nil_r, rev_app_distr.
      apply scan_lines_block; [exact Hcookies |].
      destruct (rev after) as [| line rest] eqn:Hra; [left; reflexivity |].
      right.
      assert (Hin : In line after).
      { apply in_rev. rewrite Hra. left. reflexivity. }
      rewrite Forall_forall in Ha. destruct (Ha line Hin) as [c [t [Hp Ht]]].
      exists line, c, t. repeat split; auto. clear - Ht. date_arith.
    + subst lines. rewrite !len_app.
      pose proof (len_nonneg after). pose proof (len_nonneg same).
      pose proof (len_nonneg before). lia.
  - apply Forall_rev.
    eapply day_satisfies_sort_key; [| exact Hwb | exact Hb]. auto.
  - apply Forall_rev. apply Forall_app. split.
    + eapply day_satisfies_sort_key; [| exact Hwa | exact Ha].
      intros t Ht. simpl in Ht. clear - Ht. date_arith.
    + eapply day_satisfies_sort_key; [| exact Hws | exact Hs].
      intros t Ht. clear - Ht. date_arith.
Qed.

End Tables.

(** *** The search, the table and the report *)

Section Run.

Variable strptime : string -> string -> option datetime.

(** X5.  When the log is made of lines whose day is not before the query
    day followed by lines whose day is before it, the search on the
    reversed lines returns the number of the latter, so the scan starts at
    the last of the former. *)
Theorem search_finds_day_boundary (newer older : list string) (d : date) :
  Forall (fun s => exists t, sort_key strptime s = Ok t /\ date_ltb t d = false)
    newer ->
  Forall (fun s => exists t, sort_key strptime s = Ok t /\ date_ltb t d = true)
    older ->
  bisect_left (rev (newer ++ older)) d (sort_key strptime) = Ok (len older)
  /\ len (newer ++ older) - len older - 1 = len newer - 1.
Proof.
  intros Hnewer Holder. split.
  - rewrite rev_app_distr, <- (len_rev older).
    apply bisect_left_split; apply Forall_rev; assumption.
  - rewrite len_app. lia.
Qed.

(** X6.  Whatever the log holds, sorted or not, a table [parse_file]
    returns has distinct keys, counts of at least 1, and counts no key
    more often than the data lines hold it on the query day: every key of
    the table is the key of a record of that day. *)
Theorem table_never_overcounts (fs : filesystem) (filename header : string)
  (lines : list string) (d : date) (seen : Counter) :
  fs filename = Some (header :: lines) ->
  parse_file strptime fs filename d = Ok seen ->
  NoDup (counter_keys seen)
  /\ Forall (fun kv => 1 <= snd kv) seen
  /\ (forall k, counter_get seen k <= matching_lines strptime lines d k)
  /\ (forall k, In k (counter_keys seen) ->
        1 <= matching_lines strptime lines d k).
Proof.
  intros Hfs Hseen.
  rewrite (parse_file_opened strptime fs filename header lines d Hfs) in Hseen.
  destruct (count_lines_sound strptime lines d seen Hseen) as [Hnd [Hpos Hle]].
  repeat split; auto.
  intros k Hin. apply (tally_get_pos seen k Hpos) in Hin.
  specialize (Hle k). lia.
Qed.

(** X7.  On a well-formed log sorted by day the table is the tally of the
    keys of the query day taken from the last line of the file upward, so
    its keys are iterated in the order of their oldest record of the day. *)
Theorem table_is_tally_oldest_first (fs : filesystem) (filename header : string)
  (lines : list string) (d : date) :
  fs filename = Some (header :: lines) ->
  Forall (well_formed strptime) lines ->
  Sorted (date_desc strptime) lines ->
  parse_file strptime fs filename d
  = Ok (fold_left counter_incr (day_cookies strptime lines d) [])
  /\ counter_keys (fold_left counter_incr (day_cookies strptime lines d) [])
     = first_seen (day_cookies strptime lines d).
Proof.
  intros Hfs Hwf Hsorted. split.
  - rewrite (parse_file_opened strptime fs filename header lines d Hfs).
    apply count_lines_sorted_tally; assumption.
  - apply counter_keys_tally.
Qed.

(** X8.  On a well-formed log sorted by day every key the run prints is a
    most active key of the query day: it has a record on that day and no
    key has more records on that day. *)
Theorem printed_keys_are_most_active (fs : filesystem) (args : namespace)
  (dt : datetime) (header : string) (lines : list string) :
  strptime (ns_date args) "%Y-%m-%d" = Some dt ->
  fs (ns_filename args) = Some (header :: lines) ->
  Forall (well_formed strptime) lines ->
  Sorted (date_desc strptime) lines ->
  forall k, In k (stdout (main strptime fs args)) ->
    1 <= matching_lines strptime lines (dt_date dt) k
    /\ forall k', matching_lines strptime lines (dt_date dt) k'
                  <= matching_lines strptime lines (dt_date dt) k.
Proof.
  intros Hd Hfs Hwf Hsorted k.
  rewrite (main_after_parse_args strptime fs args dt Hd).
  rewrite (parse_file_opened strptime fs _ header lines _ Hfs).
  destruct (count_lines_sorted strptime lines (dt_date dt) Hwf Hsorted)
    as [seen [Hseen [[Hnd Hpos] Hget]]].
  rewrite Hseen.
  destruct seen as [| x xs]; [simpl; tauto |].
  destruct (highest_spec (x :: xs)) as [high [Hhigh [[k0 Hk0] Hall]]];
    [discriminate |].
  unfold report. rewrite Hhigh. cbn [bind stdout].
  destruct (report_loop_prefix (x :: xs) high (counter_keys (x :: xs)))
    as [rest [Heq [Hpre _]]].
  intros Hin. rewrite Forall_forall in Hpre. specialize (Hpre k Hin).
  assert (Hhigh1 : 1 <= high).
  { rewrite Forall_forall in Hpos. apply (Hpos (k0, high) Hk0). }
  rewrite <- Hget, Hpre. split; [exact Hhigh1 |].
  intros k'. rewrite <- Hget.
  destruct (in_dec string_dec k' (counter_keys (x :: xs))) as [Hk' | Hk'].
  - apply counter_get_le; assumption.
  - rewrite (counter_get_absent _ _ Hk'). lia.
Qed.

(** X9.  Whatever the log holds, a run that ends normally has printed
    nothing to standard error and prints no key twice, and every key it
    prints is the key of a record of the query day. *)
Theorem printed_keys_distinct_and_seen (fs : filesystem) (args : namespace) :
  status (main strptime fs args) = Ok tt ->
  stderr (main strptime fs args) = []
  /\ NoDup (stdout (main strptime fs args))
  /\ exists dt header lines,
       strptime (ns_date args) "%Y-%m-%d" = Some dt
       /\ fs (ns_filename args) = Some (header :: lines)
       /\ forall k, In k (stdout (main strptime fs args)) ->
            1 <= matching_lines strptime lines (dt_date dt) k.
Proof.
  unfold main, parse_args.
  destruct (strptime (ns_date args) "%Y-%m-%d") as [dt |] eqn:Hd;
    [| discriminate].
  destruct (parse_file strptime fs (ns_filename args) (dt_date dt))
    as [seen | e] eqn:Hseen; [| discriminate].
  destruct (report seen) as [printed | e] eqn:Hrep; [| discriminate].
  cbn [status stdout stderr]. intros _.
  assert (Hfs : exists header lines,
             fs (ns_filename args) = Some (header :: lines)).
  { unfold parse_file, open_ in Hseen.
    destruct (fs (ns_filename args)) as [[| header lines] |];
      try discriminate.
    exists header, lines. reflexivity. }
  destruct Hfs as [header [lines Hfs]].
  rewrite (parse_file_opened strptime fs _ header lines _ Hfs) in Hseen.
  destruct (count_lines_sound strptime lines (dt_date dt) seen Hseen)
    as [Hnd [Hpos Hle]].
  unfold report in Hrep.
  destruct (highest seen) as [high | e]; cbn [bind] in Hrep; [| discriminate].
  inversion Hrep; subst printed.
  destruct (report_loop_prefix seen high (counter_keys seen))
    as [rest [Heq _]].
  split; [reflexivity | split].
  - rewrite Heq in Hnd. eapply NoDup_app_remove_r, Hnd.
  - exists dt, header, lines. repeat split; auto.
    intros k Hin.
    assert (Hk : In k (counter_keys seen))
      by (rewrite Heq; apply in_or_app; now left).
    apply (tally_get_pos seen k Hpos) in Hk. specialize (Hle k). lia.
Qed.

(** X11.  With a date that parses: a file that cannot be opened ends the
    run with [OSError]; a file without any line ends it with
    [StopIteration], raised by [next(fp)]; a file that holds its first line
    only gives the empty table and ends the run with [IndexError].  Nothing
    is printed in the three cases. *)
Theorem runs_without_data_lines (fs : filesystem) (args : namespace)
  (dt : datetime) :
  strptime (ns_date args) "%Y-%m-%d" = Some dt ->
  (fs (ns_filename args) = None ->
   main strptime fs args = mkoutcome [] [] (Raise OSError))
  /\ (fs (ns_filename args) = Some [] ->
      main strptime fs args = mkoutcome [] [] (Raise StopIteration))
  /\ (forall header, fs (ns_filename args) = Some [header] ->
        parse_file strptime fs (ns_filename args) (dt_date dt) = Ok []
        /\ main strptime fs args = mkoutcome [] [] (Raise IndexError)).
Proof.
  intros Hd. rewrite (main_after_parse_args strptime fs args dt Hd).
  unfold parse_file, open_.
  split; [intros ->; reflexivity | split; [intros ->; reflexivity |]].
  intros header Hfs. rewrite Hfs. cbn [bind next_then_readlines].
  unfold count_lines.
  change (rev []) with (@nil string ++ @nil string).
  rewrite bisect_left_split by constructor. split; reflexivity.
Qed.

(** X12.  The search probes the middle line of the reversed data lines
    first, whatever the query day: when the key function fails on that
    line, [parse_file] fails with the same exception for every day. *)
Theorem malformed_middle_line_aborts (fs : filesystem) (filename header : string)
  (lines : list string) (line : string) (e : exn) :
  fs filename = Some (header :: lines) ->
  nth_error (rev lines) (Z.to_nat (len lines / 2)) = Some line ->
  sort_key strptime line = Raise e ->
  forall d, parse_file strptime fs filename d = Raise e.
Proof.
  intros Hfs Hline Hkey d.
  rewrite (parse_file_opened strptime fs filename header lines d Hfs).
  unfold count_lines.
  assert (Hlen : (Z.to_nat (len lines / 2) < List.length (rev lines))%nat)
    by (apply nth_error_Some; congruence).
  rewrite length_rev in Hlen.
  assert (Hpos : 0 < len lines) by (unfold len; lia).
  rewrite (bisect_left_first_probe (rev lines) d (sort_key strptime) e);
    [reflexivity | now rewrite len_rev |].
  rewrite len_rev.
  assert (Hmid : 0 <= len lines / 2 < len (rev lines)).
  { rewrite len_rev. split; [apply Z.div_pos; lia |].
    apply Z.div_lt_upper_bound; lia. }
  destruct (getitem_nth_error (rev lines) (len lines / 2) Hmid) as [s [Hs Hg]].
  rewrite Hg. cbn [bind]. congruence.
Qed.

End Run.

(** X13.  The report of a table prints nothing exactly when the first key
    of the table is not one of the highest count, that is when a later
    key has a higher count than the first one; the run then ends
    normally. *)
Theorem report_nothing_iff_first_key_below_top (k0 : string) (v0 : Z)
  (rest : Counter) :
  report ((k0, v0) :: rest) = Ok []
  <-> exists kv, In kv rest /\ v0 < snd kv.
Proof.
  destruct (max_item_spec (k0, v0) rest) as [Hin Hall].
  unfold report, highest. cbn [most_common_1].
  change (getitem [max_item (k0, v0) rest] 0) with (Ok (max_item (k0, v0) rest)).
  cbn [bind counter_keys map fst report_loop counter_get].
  rewrite String.eqb_refl.
  inversion Hall as [| ? ? Hv0 Hrest]; subst. simpl in Hv0.
  destruct (Z.eqb_spec v0 (snd (max_item (k0, v0) rest))) as [Heq | Hne].
  - split; [discriminate |].
    intros [kv [Hkv Hlt]]. rewrite Forall_forall in Hrest.
    specialize (Hrest kv Hkv). simpl in Hrest. lia.
  - split; [intros _ | reflexivity].
    destruct Hin as [Hin | Hin].
    + exfalso. apply Hne. rewrite <- Hin. reflexivity.
    + exists (max_item (k0, v0) rest). split; [exact Hin | lia].
Qed.

(** X14.  When all the keys of a non-empty table have the same count, the
    report prints all of them, in the order of the table. *)
Theorem report_prints_all_when_tied (counts : Counter) (v : Z) :
  counts <> [] ->
  Forall (fun kv => snd kv = v) counts ->
  report counts = Ok (counter_keys counts).
Proof.
  intros Hne Hall.
  destruct (highest_spec counts Hne) as [high [Hhigh [[k Hk] _]]].
  assert (Hv : high = v).
  { rewrite Forall_forall in Hall. exact (Hall (k, high) Hk). }
  subst high. unfold report. rewrite Hhigh. cbn [bind]. f_equal.
  apply report_loop_all. apply Forall_forall. intros k' Hk'.
  apply counter_get_all_equal; assumption.
Qed.

(** *** The further properties on concrete logs *)

Lemma both_parsers_read_record_line_witness :
  parse_record strptime_fixed
    ("AtY0laUfhglK3lC7" ++ String "," ("2018-12-09T14:19:00+0000" ++ LF))%string
  = Ok ("AtY0laUfhglK3lC7", mkdate 2018 12 9)
  /\ sort_key strptime_fixed
       ("AtY0laUfhglK3lC7" ++ String "," ("2018-12-09T14:19:00+0000" ++ LF))%string
     = Ok (mkdate 2018 12 9).
Proof.
  apply (both_parsers_read_record_line strptime_fixed "AtY0laUfhglK3lC7"
           "2018-12-09T14:19:00+0000" LF
           (mkdatetime (mkdate 2018 12 9) 14 19 0 (Some 0)));
    try reflexivity.
  discriminate.
Defined.

Lemma wrong_field_count_is_ValueError_witness :
  parse_record strptime_fixed ("garbage" ++ LF) = Raise ValueError
  /\ exists cookie ts,
       split "," (strip ("x,2018-12-09T07:25:00+0000" ++ LF)) = [cookie; ts].
Proof.
  split.
  - apply (proj1 (wrong_field_count_is_ValueError strptime_fixed
                    ("garbage" ++ LF)%string)).
    discriminate.
  - apply (proj2 (wrong_field_count_is_ValueError strptime_fixed
                    ("x,2018-12-09T07:25:00+0000" ++ LF)%string)).
    reflexivity.
Defined.

Lemma key_of_line_without_comma_witness :
  sort_key strptime_fixed ("garbage" ++ LF) = Raise IndexError.
Proof.
  exact (key_of_line_without_comma strptime_fixed ("garbage" ++ LF)%string
           eq_refl).
Defined.

Lemma search_ignores_extra_fields_witness :
  sort_key strptime_fixed
    ("a" ++ String "," ("2018-12-09T14:19:00+0000" ++ String "," "extra"))%string
  = Ok (mkdate 2018 12 9)
  /\ parse_record strptime_fixed
       ("a" ++ String "," ("2018-12-09T14:19:00+0000" ++ String "," "extra"))%string
     = Raise ValueError.
Proof.
  exact (search_ignores_extra_fields strptime_fixed "a"
           "2018-12-09T14:19:00+0000" "extra"
           (mkdatetime (mkdate 2018 12 9) 14 19 0 (Some 0))
           eq_refl eq_refl eq_refl).
Defined.

Lemma search_finds_day_boundary_witness :
  bisect_left (rev (firstn 4 (tl sample_log) ++ skipn 4 (tl sample_log)))
    (mkdate 2018 12 9) (sort_key strptime_fixed)
  = Ok (len (skipn 4 (tl sample_log)))
  /\ len (firstn 4 (tl sample_log) ++ skipn 4 (tl sample_log))
     - len (skipn 4 (tl sample_log)) - 1
     = len (firstn 4 (tl sample_log)) - 1.
Proof.
  apply (search_finds_day_boundary strptime_fixed (firstn 4 (tl sample_log))
           (skipn 4 (tl sample_log)) (mkdate 2018 12 9)).
  - repeat constructor; eexists; split; reflexivity.
  - repeat constructor; eexists; split; reflexivity.
Defined.

Lemma table_never_overcounts_witness :
  parse_file strptime_fixed (one_file unsorted_log) "cookie_log.csv"
    (mkdate 2018 12 9) = Ok [("a", 1)]
  /\ matching_lines strptime_fixed (tl unsorted_log) (mkdate 2018 12 9) "a" = 2
  /\ NoDup (counter_keys [("a", 1)])
  /\ Forall (fun kv => 1 <= snd kv) [("a", 1)]
  /\ (forall k, counter_get [("a", 1)] k
                <= matching_lines strptime_fixed (tl unsorted_log)
                     (mkdate 2018 12 9) k)
  /\ (forall k, In k (counter_keys [("a", 1)]) ->
        1 <= matching_lines strptime_fixed (tl unsorted_log)
               (mkdate 2018 12 9) k).
Proof.
  assert (Hseen : parse_file strptime_fixed (one_file unsorted_log)
                    "cookie_log.csv" (mkdate 2018 12 9) = Ok [("a", 1)])
    by (vm_compute; reflexivity).
  split; [exact Hseen | split; [vm_compute; reflexivity |]].
  exact (table_never_overcounts strptime_fixed (one_file unsorted_log)
           "cookie_log.csv" (hd "" unsorted_log) (tl unsorted_log)
           (mkdate 2018 12 9) [("a", 1)] eq_refl Hseen).
Defined.

Lemma table_is_tally_oldest_first_witness :
  day_cookies strptime_fixed (tl sample_log) (mkdate 2018 12 9)
  = ["AtY0laUfhglK3lC7"; "5UAVanZf6UtGyKVS"; "SAZuXPGUrfbcn5UA";
     "AtY0laUfhglK3lC7"]
  /\ parse_file strptime_fixed sample_fs "cookie_log.csv" (mkdate 2018 12 9)
     = Ok (fold_left counter_incr
             (day_cookies strptime_fixed (tl sample_log) (mkdate 2018 12 9)) [])
  /\ counter_keys
       (fold_left counter_incr
          (day_cookies strptime_fixed (tl sample_log) (mkdate 2018 12 9)) [])
     = first_seen
         (day_cookies strptime_fixed (tl sample_log) (mkdate 2018 12 9)).
Proof.
  split; [vm_compute; reflexivity |].
  apply (table_is_tally_oldest_first strptime_fixed sample_fs "cookie_log.csv"
           (hd "" sample_log) (tl sample_log) (mkdate 2018 12 9) eq_refl);
    all_lines_by_computation.
Defined.

Lemma printed_keys_are_most_active_witness :
  stdout (main strptime_fixed sample_fs
            (mknamespace "cookie_log.csv" "2018-12-09"))
  = ["AtY0laUfhglK3lC7"]
  /\ forall k,
       In k (stdout (main strptime_fixed sample_fs
                       (mknamespace "cookie_log.csv" "2018-12-09"))) ->
       1 <= matching_lines strptime_fixed (tl sample_log) (mkdate 2018 12 9) k
       /\ forall k',
            matching_lines strptime_fixed (tl sample_log) (mkdate 2018 12 9) k'
            <= matching_lines strptime_fixed (tl sample_log)
                 (mkdate 2018 12 9) k.
Proof.
  split; [vm_compute; reflexivity |].
  apply (printed_keys_are_most_active strptime_fixed sample_fs
           (mknamespace "cookie_log.csv" "2018-12-09")
           (mkdatetime (mkdate 2018 12 9) 0 0 0 None)
           (hd "" sample_log) (tl sample_log) eq_refl eq_refl);
    all_lines_by_computation.
Defined.

Lemma printed_keys_distinct_and_seen_witness :
  stderr (main strptime_fixed (one_file unsorted_log)
            (mknamespace "cookie_log.csv" "2018-12-09")) = []
  /\ NoDup (stdout (main strptime_fixed (one_file unsorted_log)
                      (mknamespace "cookie_log.csv" "2018-12-09")))
  /\ exists dt header lines,
       strptime_fixed "2018-12-09" "%Y-%m-%d" = Some dt
       /\ one_file unsorted_log "cookie_log.csv" = Some (header :: lines)
       /\ forall k,
            In k (stdout (main strptime_fixed (one_file unsorted_log)
                            (mknamespace "cookie_log.csv" "2018-12-09"))) ->
            1 <= matching_lines strptime_fixed lines (dt_date dt) k.
Proof.
  apply (printed_keys_distinct_and_seen strptime_fixed (one_file unsorted_log)
           (mknamespace "cookie_log.csv" "2018-12-09")).
  vm_compute. reflexivity.
Defined.

Lemma runs_without_data_lines_witness :
  main strptime_fixed (fun _ => None) (mknamespace "cookie_log.csv" "2018-12-09")
  = mkoutcome [] [] (Raise OSError)
  /\ main strptime_fixed (one_file [])
       (mknamespace "cookie_log.csv" "2018-12-09")
     = mkoutcome [] [] (Raise StopIteration)
  /\ parse_file strptime_fixed (one_file ["cookie,timestamp" ++ LF]%string)
       "cookie_log.csv" (mkdate 2018 12 9) = Ok []
  /\ main strptime_fixed (one_file ["cookie,timestamp" ++ LF]%string)
       (mknamespace "cookie_log.csv" "2018-12-09")
     = mkoutcome [] [] (Raise IndexError).
Proof.
  split; [| split].
  - apply (proj1 (runs_without_data_lines strptime_fixed (fun _ => None)
                    (mknamespace "cookie_log.csv" "2018-12-09")
                    (mkdatetime (mkdate 2018 12 9) 0 0 0 None) eq_refl)).
    reflexivity.
  - apply (proj1 (proj2 (runs_without_data_lines strptime_fixed (one_file [])
                           (mknamespace "cookie_log.csv" "2018-12-09")
                           (mkdatetime (mkdate 2018 12 9) 0 0 0 None) eq_refl))).
    reflexivity.
  - apply (proj2 (proj2 (runs_without_data_lines strptime_fixed
                           (one_file ["cookie,timestamp" ++ LF]%string)
                           (mknamespace "cookie_log.csv" "2018-12-09")
                           (mkdatetime (mkdate 2018 12 9) 0 0 0 None) eq_refl))
             ("cookie,timestamp" ++ LF)%string).
    reflexivity.
Defined.

Lemma malformed_middle_line_aborts_witness :
  nth_error (rev (tl middle_garbage_log))
    (Z.to_nat (len (tl middle_garbage_log) / 2)) = Some ("oops" ++ LF)%string
  /\ sort_key strptime_fixed ("oops" ++ LF) = Raise IndexError
  /\ forall d,
       parse_file strptime_fixed (one_file middle_garbage_log) "cookie_log.csv" d
       = Raise IndexError.
Proof.
  split; [reflexivity | split; [reflexivity |]].
  exact (malformed_middle_line_aborts strptime_fixed (one_file middle_garbage_log)
           "cookie_log.csv" (hd "" middle_garbage_log) (tl middle_garbage_log)
           ("oops" ++ LF)%string IndexError eq_refl eq_refl eq_refl).
Defined.

Lemma report_prints_all_when_tied_witness :
  report [("4sMM2LxV07bPJzwf", 1); ("SAZuXPGUrfbcn5UA", 1)]
  = Ok ["4sMM2LxV07bPJzwf"; "SAZuXPGUrfbcn5UA"].
Proof.
  apply (report_prints_all_when_tied
           [("4sMM2LxV07bPJzwf", 1); ("SAZuXPGUrfbcn5UA", 1)] 1).
  - discriminate.
  - repeat constructor.
Defined.

(** *** Well-formed logs and days with one key *)

Lemma tally_one_key (c : string) (cs : list string) (v : Z) :
  Forall (eq c) cs ->
  fold_left counter_incr cs [(c, v)] = [(c, v + len cs)].
Proof.
  intros H. revert v. induction H as [| x cs Hx _ IH]; intros v.
  - unfold len. cbn [fold_left List.length]. f_equal. f_equal. lia.
  - subst x. cbn [fold_left].
    assert (Hincr : counter_incr [(c, v)] c = [(c, v + 1)]).
    { unfold counter_incr. cbn [counter_get counter_set].
      now rewrite String.eqb_refl. }
    rewrite Hincr, IH. unfold len. cbn [List.length]. f_equal. f_equal. lia.
Qed.

Section WellFormedLogs.

Variable strptime : string -> string -> option datetime.

Lemma scan_lines_total (visited : list string) (d : date) (seen : Counter) :
  Forall (fun l => exists c t, parse_record strptime l = Ok (c, t)) visited ->
  exists seen', scan_lines strptime visited d seen = Ok seen'.
Proof.
  intros H. revert seen. induction H as [| l visited [c [t Hp]] _ IH];
    intros seen; simpl.
  - exists seen. reflexivity.
  - rewrite Hp. cbn [bind]. destruct (negb (date_eqb d t)).
    + exists seen. reflexivity.
    + apply IH.
Qed.

(** X15.  On a log whose data lines are all well formed, sorted or not,
    [parse_file] raises nothing: it returns a table for every query day,
    and the run ends normally unless the table is empty, in which case it
    ends with [IndexError]. *)
Theorem parse_file_total_on_well_formed (fs : filesystem) (args : namespace)
  (dt : datetime) (header : string) (lines : list string) :
  strptime (ns_date args) "%Y-%m-%d" = Some dt ->
  fs (ns_filename args) = Some (header :: lines) ->
  Forall (well_formed strptime) lines ->
  exists seen,
    parse_file strptime fs (ns_filename args) (dt_date dt) = Ok seen
    /\ (seen = [] ->
        main strptime fs args = mkoutcome [] [] (Raise IndexError))
    /\ (seen <> [] -> status (main strptime fs args) = Ok tt).
Proof.
  intros Hd Hfs Hwf.
  rewrite (main_after_parse_args strptime fs args dt Hd).
  rewrite (parse_file_opened strptime fs _ header lines _ Hfs).
  unfold count_lines.
  destruct (bisect_left_well_formed strptime lines (dt_date dt) Hwf)
    as [index Hb].
  rewrite Hb. cbn [bind].
  apply bisect_left_bounds in Hb. rewrite len_rev in Hb.
  rewrite scan_loop_range_down by lia.
  destruct (scan_lines_total
              (rev (firstn (Z.to_nat (len lines - index - 1 + 1)) lines))
              (dt_date dt) []) as [seen Hseen].
  { apply Forall_rev, Forall_forall. intros l Hl. apply In_firstn in Hl.
    rewrite Forall_forall in Hwf.
    destruct (well_formed_parses strptime l (Hwf l Hl)) as [c [t [Hp _]]].
    exists c, t. exact Hp. }
  exists seen. rewrite Hseen. split; [reflexivity | split].
  - intros ->. reflexivity.
  - intros Hne. destruct (highest_spec seen Hne) as [high [Hhigh _]].
    unfold report. rewrite Hhigh. reflexivity.
Qed.

(** X16.  On a well-formed log sorted by day, when the records of the
    query day all have the same key and there is at least one, the run
    prints that key and nothing else, and ends normally. *)
Theorem single_key_day_prints_that_key (fs : filesystem) (args : namespace)
  (dt : datetime) (header : string) (lines : list string) (c : string)
  (cs : list string) :
  strptime (ns_date args) "%Y-%m-%d" = Some dt ->
  fs (ns_filename args) = Some (header :: lines) ->
  Forall (well_formed strptime) lines ->
  Sorted (date_desc strptime) lines ->
  day_cookies strptime lines (dt_date dt) = c :: cs ->
  Forall (eq c) cs ->
  main strptime fs args = mkoutcome [c] [] (Ok tt).
Proof.
  intros Hd Hfs Hwf Hsorted Hday Hcs.
  rewrite (main_after_parse_args strptime fs args dt Hd).
  rewrite (parse_file_opened strptime fs _ header lines _ Hfs).
  rewrite (count_lines_sorted_tally strptime lines (dt_date dt) Hwf Hsorted).
  rewrite Hday. cbn [fold_left].
  change (counter_incr [] c) with [(c, 1)].
  rewrite (tally_one_key c cs 1 Hcs).
  unfold report, highest. cbn [most_common_1 max_item fold_left].
  change (getitem [(c, 1 + len cs)] 0) with (Ok (c, 1 + len cs)).
  cbn [bind snd counter_keys map fst report_loop counter_get].
  rewrite String.eqb_refl, Z.eqb_refl. reflexivity.
Qed.

End WellFormedLogs.

Lemma parse_file_total_on_well_formed_witness :
  Forall (well_formed strptime_fixed) (tl unsorted_log)
  /\ exists seen,
       parse_file strptime_fixed (one_file unsorted_log) "cookie_log.csv"
         (mkdate 2018 12 8) = Ok seen
       /\ (seen = [] ->
           main strptime_fixed (one_file unsorted_log)
             (mknamespace "cookie_log.csv" "2018-12-08")
           = mkoutcome [] [] (Raise IndexError))
       /\ (seen <> [] ->
           status (main strptime_fixed (one_file unsorted_log)
                     (mknamespace "cookie_log.csv" "2018-12-08")) = Ok tt).
Proof.
  assert (Hwf : Forall (well_formed strptime_fixed) (tl unsorted_log))
    by all_lines_by_computation.
  split; [exact Hwf |].
  exact (parse_file_total_on_well_formed strptime_fixed (one_file unsorted_log)
           (mknamespace "cookie_log.csv" "2018-12-08")
           (mkdatetime (mkdate 2018 12 8) 0 0 0 None)
           (hd "" unsorted_log) (tl unsorted_log) eq_refl eq_refl Hwf).
Defined.

Lemma single_key_day_prints_that_key_witness :
  main strptime_fixed (one_file single_key_log)
    (mknamespace "cookie_log.csv" "2018-12-10")
  = mkoutcome ["k"] [] (Ok tt).
Proof.
  apply (single_key_day_prints_that_key strptime_fixed (one_file single_key_log)
           (mknamespace "cookie_log.csv" "2018-12-10")
           (mkdatetime (mkdate 2018 12 10) 0 0 0 None)
           (hd "" single_key_log) (tl single_key_log) "k" ["k"]
           eq_refl eq_refl).
  - all_lines_by_computation.
  - all_lines_by_computation.
  - vm_compute. reflexivity.
  - repeat constructor.
Defined.
